(** * Dataset builders of [utils/dataset.py]

    A shallow embedding of the two dataset builders
    [create_criteo_dataset] and [create_explicit_ml_1m_dataset], together
    with the library routines they call (pandas [fillna], [iloc], [drop],
    [sample]; scikit-learn [LabelEncoder], [MinMaxScaler] and
    [train_test_split]), followed by the properties of the builders.

    The embedding starts after parsing: a file is the table [read_csv]
    returns.  The CTR table is kept column by column, as the code works on
    it; the rating table is a list of rows whose position is the pandas
    index.  Random draws ([RandomState.permutation]) are an explicit
    argument [permutation k n]: the [k]-th permutation of [range(n)]. *)

From Stdlib Require Import String Ascii DecimalString.
From Stdlib Require Import List Bool Arith ZArith Lia.
From Stdlib Require Import Permutation Sorted OrdersEx RelationClasses.
From Stdlib Require Import QArith Qround Lqa.
From Stdlib Require Import Floats Uint63.
Import ListNotations.

Local Open Scope Z_scope.
Local Open Scope list_scope.

(* ================================================================== *)
(** ** Python and numpy helpers *)

(** [str(i)] for a non-negative integer. *)
Definition str (i : nat) : string := NilEmpty.string_of_uint (Nat.to_uint i).

(** [values.astype('int32')]: wrap-around to a signed 32-bit integer. *)
Definition astype_int32 (z : Z) : Z := (z + 2 ^ 31) mod 2 ^ 32 - 2 ^ 31.

(** Python slice [l[a:b]], negative indices counting from the end. *)
Definition slice_index (len i : Z) : Z :=
  if i <? 0 then Z.max 0 (i + len) else Z.min i len.

Definition py_slice {A : Type} (l : list A) (a b : Z) : list A :=
  let len := Z.of_nat (List.length l) in
  let a' := slice_index len a in
  let b' := slice_index len b in
  firstn (Z.to_nat (b' - a')) (skipn (Z.to_nat a') l).

(** The option monad carries Python exceptions. *)
Definition bind {A B : Type} (m : option A) (k : A -> option B) : option B :=
  match m with
  | Some a => k a
  | None => None
  end.

Notation "x <- m ;; k" := (bind m (fun x => k))
  (at level 61, m at next level, right associativity).
Notation "' p <- m ;; k" := (bind m (fun p => k))
  (at level 61, p pattern, m at next level, right associativity).

Fixpoint mapM {A B : Type} (f : A -> option B) (l : list A) : option (list B) :=
  match l with
  | [] => Some []
  | a :: l' => b <- f a ;; bs <- mapM f l' ;; Some (b :: bs)
  end.

(* ------------------------------------------------------------------ *)
(** *** [sorted(set(values))] and table lookup *)

Section SortedSet.
Context {A : Type} (cmp : A -> A -> comparison).

Fixpoint insert_unique (v : A) (l : list A) : list A :=
  match l with
  | [] => [v]
  | c :: l' =>
      match cmp v c with
      | Lt => v :: l
      | Eq => l
      | Gt => c :: insert_unique v l'
      end
  end.

(** The distinct values of [l] in ascending order. *)
Definition sorted_set (l : list A) : list A := fold_right insert_unique [] l.

(** [table[v]] for [table = {val: i for i, val in enumerate(uniques)}];
    [None] is Python's [KeyError]. *)
Fixpoint index_of (v : A) (uniques : list A) : option nat :=
  match uniques with
  | [] => None
  | c :: l' =>
      match cmp v c with
      | Eq => Some 0%nat
      | _ => option_map S (index_of v l')
      end
  end.

(** The strict order of [cmp], and its test against a bound [v]. *)
Definition lt_of : A -> A -> Prop := fun a b => cmp a b = Lt.

Definition below (v : A) : A -> bool :=
  fun c => match cmp c v with Lt => true | _ => false end.

(** The number of distinct values of [l] strictly below [v]. *)
Definition rank (eq_dec : forall x y : A, {x = y} + {x <> y})
    (v : A) (l : list A) : nat :=
  List.length (nodup eq_dec (filter (below v) l)).
End SortedSet.

(** What the proofs need of a three-way comparison. *)
Class OrderSpec {A : Type} (cmp : A -> A -> comparison) : Prop := {
  cmp_eq : forall x y, cmp x y = Eq <-> x = y;
  cmp_gt : forall x y, cmp x y = Gt <-> cmp y x = Lt;
  cmp_trans : forall x y z, cmp x y = Lt -> cmp y z = Lt -> cmp x z = Lt
}.

(* ------------------------------------------------------------------ *)
(** *** Arithmetic of the numeric columns

    numpy computes on binary64 floats.  The builders are written once over
    the operations they use and instantiated twice: with the kernel's
    binary64 floats, which is the arithmetic of the code, and with exact
    rationals. *)

Class Number (F : Type) := {
  of_int : Z -> F;
  fadd : F -> F -> F;
  fsub : F -> F -> F;
  fmul : F -> F -> F;
  fdiv : F -> F -> F;
  fle : F -> F -> bool;
  feq : F -> F -> bool;
  (** [math.ceil]; [None] is the error raised on NaN or an infinity. *)
  fceil : F -> option Z
}.

Definition float_of_Z (z : Z) : float :=
  if z <? 0 then PrimFloat.opp (PrimFloat.of_uint63 (Uint63.of_Z (- z)))
  else PrimFloat.of_uint63 (Uint63.of_Z z).

(** The value [(-1)^s * m * 2^e] rounded up or down to an integer. *)
Definition float_round (up : bool) (f : float) : option Z :=
  match Prim2SF f with
  | S754_zero _ => Some 0
  | S754_finite s m e =>
      let v := if s then Z.neg m else Z.pos m in
      if 0 <=? e then Some (Z.shiftl v e)
      else if up then Some (- Z.shiftr (- v) (- e))
      else Some (Z.shiftr v (- e))
  | S754_infinity _ => None
  | S754_nan => None
  end.

Definition float_ceil (f : float) : option Z := float_round true f.

(** Python's [int(f)], truncation toward zero.  The builders apply it to
    [0.8 * count] only, which is finite; the value chosen for NaN and the
    infinities (where Python raises) is never used. *)
Definition float_int (f : float) : Z :=
  match float_round (PrimFloat.ltb f PrimFloat.zero) f with
  | Some z => z
  | None => 0
  end.

#[export] Instance binary64 : Number float := {
  of_int := float_of_Z;
  fadd := PrimFloat.add;
  fsub := PrimFloat.sub;
  fmul := PrimFloat.mul;
  fdiv := PrimFloat.div;
  fle := PrimFloat.leb;
  feq := PrimFloat.eqb;
  fceil := float_ceil
}.

#[export] Instance exact : Number Q := {
  of_int := inject_Z;
  fadd := Qplus;
  fsub := Qminus;
  fmul := Qmult;
  fdiv := Qdiv;
  fle := Qle_bool;
  feq := Qeq_bool;
  fceil := fun q => Some (Qceiling q)
}.

(* ================================================================== *)
(** ** pandas *)

(** [column.fillna(v)]: a missing cell is [None]. *)
Definition fillna {A : Type} (v : A) (column : list (option A)) : list A :=
  map (fun cell => match cell with Some x => x | None => v end) column.

(** [frame[columns].values] restricted to the rows [index]: one list per
    row, in the order of [index]. *)
Definition values {A : Type} (d : A) (columns : list (list A))
    (index : list nat) : list (list A) :=
  map (fun i => map (fun column => nth i column d) columns) index.

(** [series.values] restricted to the rows [index]. *)
Definition series_values {A : Type} (d : A) (column : list A)
    (index : list nat) : list A :=
  map (fun i => nth i column d) index.

(** [frame.iloc[index]] on a list of rows. *)
Definition take_rows {A : Type} (rows : list A) (index : list nat) : list A :=
  flat_map (fun i => match nth_error rows i with
                     | Some r => [r]
                     | None => []
                     end) index.

(* ================================================================== *)
(** ** scikit-learn *)

Module LabelEncoder.
(** [classes_ = sorted(set(y))]; strings compare by code point, which on
    their bytes is the lexicographic order of [String_as_OT]. *)
Definition fit (y : list string) : list string :=
  sorted_set String_as_OT.compare y.

Definition transform (classes_ : list string) (y : list string)
    : option (list nat) :=
  mapM (fun v => index_of String_as_OT.compare v classes_) y.

Definition fit_transform (y : list string) : option (list nat) :=
  transform (fit y) y.
End LabelEncoder.

Module MinMaxScaler.
Section Scaler.
Context {F : Type} `{Number F}.

(** [np.min] and [np.max] along a column. *)
Definition column_min (x0 : F) (column : list F) : F :=
  fold_left (fun m x => if fle x m then x else m) column x0.

Definition column_max (x0 : F) (column : list F) : F :=
  fold_left (fun m x => if fle m x then x else m) column x0.

(** [_handle_zeros_in_scale]: a zero range scales by one. *)
Definition handle_zeros_in_scale (data_range : F) : F :=
  if feq data_range (of_int 0) then of_int 1 else data_range.

(** The fitted attributes [(scale_, min_)] for [feature_range=(0, 1)];
    a column without rows is refused. *)
Definition fit (column : list F) : option (F * F) :=
  match column with
  | [] => None
  | x0 :: _ =>
      let data_min := column_min x0 column in
      let data_max := column_max x0 column in
      let data_range := fsub data_max data_min in
      let scale_ :=
        fdiv (of_int (1 - 0)) (handle_zeros_in_scale data_range) in
      let min_ := fsub (of_int 0) (fmul data_min scale_) in
      Some (scale_, min_)
  end.

(** [X *= scale_; X += min_]. *)
Definition transform (params : F * F) (x : F) : F :=
  fadd (fmul x (fst params)) (snd params).

Definition fit_transform_column (column : list F) : option (list F) :=
  params <- fit column ;;
  Some (map (transform params) column).

(** Every column is fitted and scaled on its own. *)
Definition fit_transform (X : list (list F)) : option (list (list F)) :=
  mapM fit_transform_column X.
End Scaler.
End MinMaxScaler.

Section TrainTestSplit.
Context {F : Type} `{Number F}.

(** [_validate_shuffle_split] for a float [test_size] and no
    [train_size]: the pair [(n_train, n_test)]. *)
Definition validate_shuffle_split (n_samples : nat) (test_size : F)
    : option (Z * Z) :=
  if fle test_size (of_int 0) || fle (of_int 1) test_size then None
  else
    n_test <- fceil (fmul test_size (of_int (Z.of_nat n_samples))) ;;
    let n_train := Z.of_nat n_samples - n_test in
    if Z.of_nat n_samples <? n_train + n_test then None
    else if n_train =? 0 then None
    else Some (n_train, n_test).

(** The row positions [(train, test)] that [train_test_split] selects
    from the drawn permutation. *)
Definition train_test_split (perm : list nat) (n_samples : nat)
    (test_size : F) : option (list nat * list nat) :=
  '(n_train, n_test) <- validate_shuffle_split n_samples test_size ;;
  let ind_test := py_slice perm 0 n_test in
  let ind_train := py_slice perm n_test (n_test + n_train) in
  Some (ind_train, ind_test).
End TrainTestSplit.

(* ================================================================== *)
(** ** Feature descriptors *)

Record denseFeat := { dense_feat : string }.

Record sparseFeat := {
  sparse_feat : string;
  feat_num : Z;
  embed_dim : Z
}.

(** Modelled from the spec: [denseFeature] of [utils/func.py], which is
    not among the sources: [denseFeature(name) -> {feat: name}]. *)
Definition denseFeature (feat : string) : denseFeat :=
  {| dense_feat := feat |}.

(** Modelled from the spec: [sparseFeature] of [utils/func.py], which is
    not among the sources: [sparseFeature(name, cardinality, embed_dim) ->
    {feat: name, feat_num: cardinality, embed_dim: embed_dim}]. *)
Definition sparseFeature (feat : string) (feat_num : Z) (embed_dim : Z)
    : sparseFeat :=
  {| sparse_feat := feat; feat_num := feat_num; embed_dim := embed_dim |}.

Definition feature_columns : Type := list denseFeat * list sparseFeat.

(* ================================================================== *)
(** ** The CTR builder: [create_criteo_dataset] *)

(** The table read from the tab-separated file: the [label] column, the
    thirteen integer columns [I1..I13] and the twenty-six categorical
    columns [C1..C26], a missing cell being [None]. *)
Record criteo_df (F : Type) := {
  label : list Z;
  I : list (list (option F));
  C : list (list (option string))
}.
Arguments label {F} _.
Arguments I {F} _.
Arguments C {F} _.

(** What [read_csv] guarantees: the schema, and columns of one length. *)
Definition criteo_wf {F : Type} (df : criteo_df F) : Prop :=
  List.length (I df) = 13%nat /\
  List.length (C df) = 26%nat /\
  Forall (fun col => List.length col = List.length (label df)) (I df) /\
  Forall (fun col => List.length col = List.length (label df)) (C df).

(** [(X, y)] with [X = [dense values, sparse ids]]. *)
Record criteo_xy (F : Type) := {
  X_dense : list (list F);
  X_sparse : list (list Z);
  y : list Z
}.
Arguments X_dense {F} _.
Arguments X_sparse {F} _.
Arguments y {F} _.

(** [reader.get_chunk(sample_num)]: the first [sample_num] rows. *)
Definition get_chunk {F : Type} (sample_num : nat) (df : criteo_df F)
    : criteo_df F :=
  {| label := firstn sample_num (label df);
     I := map (firstn sample_num) (I df);
     C := map (firstn sample_num) (C df) |}.

Definition sparse_features : list string :=
  map (fun i => ("C" ++ str i)%string) (seq 1 26).

Definition dense_features : list string :=
  map (fun i => ("I" ++ str i)%string) (seq 1 13).

(** [len(column.unique())]. *)
Definition n_unique (column : list nat) : Z :=
  Z.of_nat (List.length (nodup Nat.eq_dec column)).

Section Criteo.
Context {F : Type} `{Number F}.
Variable permutation : nat -> nat -> list nat.

(** Lines 49 and 52-54: imputation and label encoding of the sparse
    columns, one encoder per column. *)
Definition encode_sparse (data_df : criteo_df F) : option (list (list nat)) :=
  mapM (fun column => LabelEncoder.fit_transform (fillna "-1"%string column))
       (C data_df).

(** Lines 50 and 61-62: imputation and scaling of the dense columns. *)
Definition scale_dense (data_df : criteo_df F) : option (list (list F)) :=
  MinMaxScaler.fit_transform (map (fillna (of_int 0)) (I data_df)).

Definition criteo_part (labels : list Z) (dense : list (list F))
    (sparse : list (list nat)) (index : list nat) : criteo_xy F :=
  {| X_dense := values (of_int 0) dense index;
     X_sparse :=
       map (map (fun id => astype_int32 (Z.of_nat id)))
           (values 0%nat sparse index);
     y := map astype_int32 (series_values 0 labels index) |}.

Definition create_criteo_dataset (file : criteo_df F) (embed_dim : Z)
    (read_part : bool) (sample_num : nat) (test_size : F)
    : option (feature_columns * criteo_xy F * criteo_xy F) :=
  let data_df := if read_part then get_chunk sample_num file else file in
  sparse <- encode_sparse data_df ;;
  dense <- scale_dense data_df ;;
  let feature_columns :=
    (map denseFeature dense_features,
     map (fun '(feat, column) => sparseFeature feat (n_unique column) embed_dim)
         (combine sparse_features sparse)) in
  let n := List.length (label data_df) in
  '(train, test) <- train_test_split (permutation 0%nat n) n test_size ;;
  Some (feature_columns,
        criteo_part (label data_df) dense sparse train,
        criteo_part (label data_df) dense sparse test).
End Criteo.

(* ================================================================== *)
(** ** The rating builder: [create_explicit_ml_1m_dataset] *)

(** A row of the [::]-separated file. *)
Record rating_row := {
  UserId : Z;
  MovieId : Z;
  Rating : Z;
  Timestamp : Z
}.

(** A row once [avg_score] has been added. *)
Record scored_row := {
  row : rating_row;
  avg_score : float
}.

(** [(X, y)] with [X = [avg_score, [UserId, MovieId]]]. *)
Record rating_xy := {
  X_avg : list float;
  X_ids : list (Z * Z);
  y_rating : list Z
}.

Definition user_rows {A : Type} (user : A -> Z) (i : Z) (rows : list A)
    : list A :=
  filter (fun r => user r =? i) rows.

(** [groupby('UserId')['Rating'].transform('mean')] at the rows of user
    [i]: the sum of the ratings divided by their number, in binary64. *)
Definition mean_rating (data_df : list rating_row) (i : Z) : float :=
  let rs := user_rows UserId i data_df in
  PrimFloat.div (float_of_Z (fold_right Z.add 0 (map Rating rs)))
                (float_of_Z (Z.of_nat (List.length rs))).

Definition add_avg_score (data_df : list rating_row) : list scored_row :=
  map (fun r => {| row := r; avg_score := mean_rating data_df (UserId r) |})
      data_df.

(** [column.max()] of a table that has rows. *)
Definition column_max_Z (column : list Z) : Z :=
  match column with
  | [] => 0
  | x :: l => fold_left Z.max l x
  end.

(** [groupby('UserId')['MovieId'].agg('count')]: the index, ascending, and
    the count of a user. *)
Definition watch_index (data_df : list scored_row) : list Z :=
  sorted_set Z.compare (map (fun r => UserId (row r)) data_df).

Definition watch_count (data_df : list scored_row) (i : Z) : nat :=
  List.length (user_rows (fun r => UserId (row r)) i data_df).

(** The float literal [0.8]. *)
Definition f0_8 : float := 0x1.999999999999ap-1%float.

(** [int(0.8 * watch_count[i])]. *)
Definition train_count (count : nat) : nat :=
  Z.to_nat (float_int (PrimFloat.mul f0_8 (float_of_Z (Z.of_nat count)))).

(** The frame with its index: the position of each row in the file. *)
Definition with_index {A : Type} (rows : list A) : list (nat * A) :=
  combine (seq 0 (List.length rows)) rows.

(** Lines 98-99: per user, in the order of the index of [watch_count],
    the rows of the user from position [int(0.8 * count)] on;
    [pd.concat] refuses an empty list of frames. *)
Definition test_df (data_df : list scored_row) : option (list (nat * scored_row)) :=
  match watch_index data_df with
  | [] => None
  | index =>
      Some (flat_map
              (fun i =>
                 skipn (train_count (watch_count data_df i))
                       (user_rows (fun r => UserId (row (snd r))) i
                                  (with_index data_df)))
              index)
  end.

(** Line 101: [data_df.drop(labels=test_df['index'])]. *)
Definition train_df (data_df : list scored_row) (test : list (nat * scored_row))
    : list (nat * scored_row) :=
  filter (fun r => negb (existsb (Nat.eqb (fst r)) (map fst test)))
         (with_index data_df).

(** [frame.sample(frac=1.)]: the rows in the order of the drawn
    permutation. *)
Definition sample {A : Type} (perm : list nat) (rows : list A) : list A :=
  take_rows rows perm.

Definition rating_part (rows : list scored_row) : rating_xy :=
  {| X_avg := map avg_score rows;
     X_ids := map (fun r => (UserId (row r), MovieId (row r))) rows;
     y_rating := map (fun r => astype_int32 (Rating (row r))) rows |}.

Section MovieLens.
Variable permutation : nat -> nat -> list nat.

Definition create_explicit_ml_1m_dataset (file : list rating_row)
    (latent_dim : Z) (test_size : float)
    : option (feature_columns * rating_xy * rating_xy) :=
  let data_df := add_avg_score file in
  let user_num := column_max_Z (map UserId file) + 1 in
  let item_num := column_max_Z (map MovieId file) + 1 in
  let feature_columns :=
    ([denseFeature "avg_score"],
     [sparseFeature "user_id" user_num latent_dim;
      sparseFeature "item_id" item_num latent_dim]) in
  test <- test_df data_df ;;
  let train := train_df data_df test in
  let train_rows := map snd train in
  let test_rows := map snd test in
  let train_rows :=
    sample (permutation 0%nat (List.length train_rows)) train_rows in
  let test_rows :=
    sample (permutation 1%nat (List.length test_rows)) test_rows in
  Some (feature_columns, rating_part train_rows, rating_part test_rows).
End MovieLens.

(* ================================================================== *)
(** ** Vocabulary of the statements *)

(** The rows of user [u] in an output partition. *)
Definition user_count (u : Z) (ids : list (Z * Z)) : nat :=
  List.length (filter (fun p => fst p =? u) ids).

(** [int(0.8 * k)] in binary64 against the exact [floor(4 * k / 5)], and
    the test of all [k] below a bound. *)
Definition train_count_agrees (k : Z) : bool :=
  float_int (PrimFloat.mul f0_8 (float_of_Z k)) =? 4 * k / 5.

Definition check_step (s : Z * bool) : Z * bool :=
  (fst s + 1, andb (snd s) (train_count_agrees (fst s))).

Definition check_below (bound : positive) : bool :=
  snd (Pos.iter check_step (0, true) bound).

(** The rows of an output partition, one triple per row. *)
Definition rating_rows (xy : rating_xy) : list (float * (Z * Z) * Z) :=
  combine (combine (X_avg xy) (X_ids xy)) (y_rating xy).

(** What the builder returns for a row of the file. *)
Definition encode_rating (file : list rating_row) (r : rating_row)
    : float * (Z * Z) * Z :=
  (mean_rating file (UserId r), (UserId r, MovieId r), astype_int32 (Rating r)).

(** The user of an output row. *)
Definition row_user (t : float * (Z * Z) * Z) : Z := fst (snd (fst t)).

(** The identity draw: a generator that returns [range(n)] itself. *)
Definition no_shuffle (k n : nat) : list nat := seq 0 n.

(** A draw that reverses the rows. *)
Definition reversing (k n : nat) : list nat := rev (seq 0 n).

(** Small tables: five rows of the CTR file, [I1] holding [-1], a missing
    cell and [92], [C1] holding two categories, a missing cell and the
    literal ["-1"]; the same table on binary64 and on rationals. *)
Definition criteo_sample_I1 {F : Type} `{Number F} : list (option F) :=
  [Some (of_int (-1)); None; Some (of_int 92); Some (of_int 5); Some (of_int 7)].

Definition criteo_sample_C1 : list (option string) :=
  [Some "b"; None; Some "a"; Some "b"; Some "-1"]%string.

Definition criteo_sample {F : Type} `{Number F} : criteo_df F :=
  {| label := [1; 0; 1; 0; 1];
     I := criteo_sample_I1
          :: repeat [None; Some (of_int 3); None; None; None] 12;
     C := criteo_sample_C1 :: repeat [None; None; None; None; None] 25 |}.


Definition test_size_0_2 : float := 0x1.999999999999ap-3%float.

Definition rating (u m r t : Z) : rating_row :=
  {| UserId := u; MovieId := m; Rating := r; Timestamp := t |}.

(** Ratings of three users; those of user [1] come latest first. *)
Definition ratings_sample : list rating_row :=
  [rating 2 10 5 100;
   rating 1 1 4 50; rating 1 2 3 40; rating 1 3 3 30;
   rating 1 4 1 20; rating 1 5 2 10;
   rating 3 1 1 1; rating 3 2 2 2].

(** The ratings of one user, latest first. *)
Definition ratings_latest_first : list rating_row :=
  [rating 1 1 4 50; rating 1 2 3 40; rating 1 3 3 30;
   rating 1 4 1 20; rating 1 5 2 10].

(** A user with a single rating. *)
Definition ratings_single : list rating_row := [rating 7 3 4 100].

(* ================================================================== *)
(** * Properties *)

(** ** The option monad *)

Lemma bind_Some {A B : Type} (m : option A) (k : A -> option B) (b : B) :
  bind m k = Some b <-> exists a, m = Some a /\ k a = Some b.
Proof.
  destruct m as [a|]; simpl; split.
  - intros E. now exists a.
  - now intros (a' & [= <-] & E).
  - discriminate.
  - now intros (a' & [=] & _).
Qed.

Lemma Some_inj {A : Type} (a b : A) : Some a = Some b -> a = b.
Proof. now intros [= ->]. Qed.

Lemma mapM_Forall2 {A B : Type} (f : A -> option B) (l : list A) (r : list B) :
  mapM f l = Some r <-> Forall2 (fun a b => f a = Some b) l r.
Proof.
  revert r; induction l as [|a l IH]; intros r; simpl.
  - split; [intros [= <-]; constructor | inversion 1; reflexivity].
  - rewrite bind_Some. split.
    + intros (b & Eb & E). apply bind_Some in E as (bs & Ebs & [= <-]).
      constructor; [assumption | now apply IH].
    + inversion 1 as [|? b ? bs Eb Ebs]; subst. exists b. split; [assumption|].
      apply bind_Some. exists bs. split; [now apply IH | reflexivity].
Qed.


Lemma Forall2_nth_error {A B : Type} (R : A -> B -> Prop) l r :
  Forall2 R l r ->
  forall i a, nth_error l i = Some a -> exists b, nth_error r i = Some b /\ R a b.
Proof.
  induction 1 as [|a0 b0 l r Hab _ IH]; intros [|i] a E; simpl in *;
    try discriminate.
  - injection E as <-. now exists b0.
  - now apply IH.
Qed.

Lemma Forall2_nth_error_r {A B : Type} (R : A -> B -> Prop) l r :
  Forall2 R l r ->
  forall i b, nth_error r i = Some b -> exists a, nth_error l i = Some a /\ R a b.
Proof.
  induction 1 as [|a0 b0 l r Hab _ IH]; intros [|i] b E; simpl in *;
    try discriminate.
  - injection E as <-. now exists a0.
  - now apply IH.
Qed.

Lemma filter_all_false {A : Type} (f : A -> bool) (l : list A) :
  (forall x, In x l -> f x = false) -> filter f l = [].
Proof.
  induction l as [|a l IH]; intros Hf; simpl; [reflexivity|].
  rewrite (Hf a (or_introl eq_refl)). apply IH. intros; apply Hf; now right.
Qed.

(** ** Three-way comparisons *)

#[export] Instance string_order : OrderSpec String_as_OT.compare.
Proof.
  assert (irr : forall x, String_as_OT.compare x x <> Lt)
    by (intros x; apply (StrictOrder_Irreflexive (R := String_as_OT.lt))).
  assert (tr : forall x y z, String_as_OT.compare x y = Lt ->
             String_as_OT.compare y z = Lt -> String_as_OT.compare x z = Lt)
    by (intros x y z; apply (StrictOrder_Transitive (R := String_as_OT.lt))).
  split.
  - intros x y. split.
    + intros E. destruct (String_as_OT.compare_spec x y); congruence.
    + intros <-. destruct (String_as_OT.compare_spec x x) as [_|L|L];
        [reflexivity | exfalso; exact (irr _ L)..].
  - intros x y. split.
    + intros E. destruct (String_as_OT.compare_spec x y); congruence.
    + intros L. destruct (String_as_OT.compare_spec x y) as [E|L'|_].
      * red in E. subst y. exfalso. exact (irr _ L).
      * exfalso. exact (irr _ (tr x y x L' L)).
      * reflexivity.
  - exact tr.
Qed.

#[export] Instance Z_order : OrderSpec Z.compare.
Proof.
  split.
  - intros x y. apply Z.compare_eq_iff.
  - intros x y. rewrite Z.compare_gt_iff, Z.compare_lt_iff. reflexivity.
  - intros x y z. rewrite !Z.compare_lt_iff. lia.
Qed.

(** ** [sorted_set], [index_of] and [rank] *)

Section SortedSetFacts.
Context {A : Type} (cmp : A -> A -> comparison) `{!OrderSpec cmp}.

Lemma cmp_refl x : cmp x x = Eq.
Proof. now apply cmp_eq. Qed.

Lemma lt_of_irrefl x : ~ lt_of cmp x x.
Proof. unfold lt_of. rewrite cmp_refl. discriminate. Qed.

Lemma insert_unique_In v l x :
  In x (insert_unique cmp v l) <-> x = v \/ In x l.
Proof.
  induction l as [|c l IH]; simpl.
  - intuition.
  - destruct (cmp v c) eqn:E; simpl.
    + apply cmp_eq in E. subst. intuition.
    + intuition.
    + rewrite IH. intuition.
Qed.

Lemma sorted_set_In l x : In x (sorted_set cmp l) <-> In x l.
Proof.
  induction l as [|a l IH]; simpl; [reflexivity|].
  rewrite insert_unique_In, IH. intuition.
Qed.

Lemma insert_unique_sorted v l :
  StronglySorted (lt_of cmp) l -> StronglySorted (lt_of cmp) (insert_unique cmp v l).
Proof.
  induction 1 as [|c l Hs IH Hc]; simpl.
  - repeat constructor.
  - destruct (cmp v c) eqn:E.
    + now constructor.
    + constructor; [now constructor|].
      constructor; [exact E|].
      rewrite Forall_forall in *. intros x Hx.
      eapply cmp_trans; [exact E | now apply Hc].
    + constructor; [exact IH|].
      rewrite Forall_forall in *. intros x Hx.
      apply insert_unique_In in Hx as [->|Hx]; [now apply cmp_gt | now apply Hc].
Qed.

Lemma sorted_set_sorted l : StronglySorted (lt_of cmp) (sorted_set cmp l).
Proof.
  induction l; simpl; [constructor | now apply insert_unique_sorted].
Qed.

Lemma sorted_NoDup l : StronglySorted (lt_of cmp) l -> NoDup l.
Proof.
  induction 1 as [|c l Hs IH Hc]; constructor; [|exact IH].
  intros Hin. rewrite Forall_forall in Hc.
  exact (lt_of_irrefl c (Hc c Hin)).
Qed.



(** In an ascending list the position of [v] is the number of elements
    below [v]. *)
Lemma index_of_sorted v l :
  StronglySorted (lt_of cmp) l -> In v l ->
  index_of cmp v l = Some (List.length (filter (below cmp v) l)).
Proof.
  induction 1 as [|c l Hs IH Hc]; intros Hin; [contradiction|].
  simpl. unfold below at 1. destruct (cmp v c) eqn:E.
  - apply cmp_eq in E. subst c. rewrite cmp_refl.
    replace (filter (below cmp v) l) with (@nil A); [reflexivity|].
    symmetry. apply filter_all_false.
    rewrite Forall_forall in Hc. intros x Hx. unfold below.
    destruct (cmp x v) eqn:Ex; try reflexivity.
    exfalso. apply (lt_of_irrefl v). eapply cmp_trans; [apply Hc, Hx | exact Ex].
  - destruct Hin as [->|Hin]; [now rewrite cmp_refl in E|].
    rewrite Forall_forall in Hc. exfalso. apply (lt_of_irrefl v).
    eapply cmp_trans; [exact E | apply Hc, Hin].
  - destruct Hin as [->|Hin]; [now rewrite cmp_refl in E|].
    apply cmp_gt in E. rewrite E. simpl. now rewrite IH.
Qed.

Lemma index_of_lt v l i : index_of cmp v l = Some i -> (i < List.length l)%nat.
Proof.
  revert i; induction l as [|c l IH]; intros i; simpl; [discriminate|].
  destruct (cmp v c); [intros [= <-]; lia | |];
    (destruct (index_of cmp v l) as [k|]; simpl; [|discriminate];
     intros [= <-]; specialize (IH k eq_refl); lia).
Qed.

Variable eq_dec : forall x y : A, {x = y} + {x <> y}.

(** The ascending distinct values are as many as the distinct values. *)
Lemma sorted_set_length l :
  List.length (sorted_set cmp l) = List.length (nodup eq_dec l).
Proof.
  apply Permutation_length, NoDup_Permutation.
  - apply sorted_NoDup, sorted_set_sorted.
  - apply NoDup_nodup.
  - intros x. now rewrite sorted_set_In, nodup_In.
Qed.

Lemma rank_sorted_set v l :
  rank cmp eq_dec v l = List.length (filter (below cmp v) (sorted_set cmp l)).
Proof.
  unfold rank. apply Permutation_length, NoDup_Permutation.
  - apply NoDup_nodup.
  - apply NoDup_filter, sorted_NoDup, sorted_set_sorted.
  - intros x. rewrite nodup_In, !filter_In, sorted_set_In. reflexivity.
Qed.

(** The table lookup of a value of the column is its rank. *)
Lemma index_of_rank v l :
  In v l -> index_of cmp v (sorted_set cmp l) = Some (rank cmp eq_dec v l).
Proof.
  intros Hin. rewrite rank_sorted_set. apply index_of_sorted.
  - apply sorted_set_sorted.
  - now apply sorted_set_In.
Qed.
End SortedSetFacts.

(** ** [LabelEncoder] *)

Lemma fillna_length {A : Type} (v : A) (column : list (option A)) :
  List.length (fillna v column) = List.length column.
Proof. apply length_map. Qed.

Lemma fillna_nth_error {A : Type} (v : A) (column : list (option A)) i :
  nth_error (fillna v column) i =
  option_map (fun cell => match cell with Some x => x | None => v end)
             (nth_error column i).
Proof. apply nth_error_map. Qed.


Lemma fit_transform_length (y : list string) ids :
  LabelEncoder.fit_transform y = Some ids -> List.length ids = List.length y.
Proof.
  intros E. apply mapM_Forall2 in E. symmetry. exact (Forall2_length E).
Qed.

(** The id written at a row is the table lookup of the value there. *)
Lemma fit_transform_lookup (y : list string) ids i v :
  LabelEncoder.fit_transform y = Some ids ->
  nth_error y i = Some v ->
  nth_error ids i = index_of String_as_OT.compare v (LabelEncoder.fit y).
Proof.
  intros E Hv. apply mapM_Forall2 in E.
  destruct (Forall2_nth_error _ _ _ E i v Hv) as (id & -> & Eid).
  now symmetry.
Qed.

Lemma fit_transform_rank (y : list string) ids i v :
  LabelEncoder.fit_transform y = Some ids ->
  nth_error y i = Some v ->
  nth_error ids i = Some (rank String_as_OT.compare string_dec v y).
Proof.
  intros E Hv. rewrite (fit_transform_lookup y ids i v E Hv).
  apply index_of_rank; [exact string_order|]. eapply nth_error_In, Hv.
Qed.

Lemma fit_transform_bound (y : list string) ids id :
  LabelEncoder.fit_transform y = Some ids -> In id ids ->
  (id < List.length (nodup string_dec y))%nat.
Proof.
  intros E Hid. apply In_nth_error in Hid as (i & Hi).
  apply mapM_Forall2 in E.
  destruct (Forall2_nth_error_r _ _ _ E i id Hi) as (v & _ & Ev).
  apply index_of_lt in Ev. unfold LabelEncoder.fit in Ev.
  now rewrite (sorted_set_length _ string_dec) in Ev.
Qed.


Section CriteoSparse.
Context {F : Type} `{Number F}.


Lemma encode_sparse_column (data_df : criteo_df F) sparse j column :
  encode_sparse data_df = Some sparse ->
  nth_error (C data_df) j = Some column ->
  exists ids, nth_error sparse j = Some ids /\
    LabelEncoder.fit_transform (fillna "-1"%string column) = Some ids.
Proof.
  intros E Hc. apply mapM_Forall2 in E.
  exact (Forall2_nth_error _ _ _ E j column Hc).
Qed.

End CriteoSparse.

(** ** [MinMaxScaler] on any arithmetic *)

Section CriteoDense.
Context {F : Type} `{Number F}.

Lemma scale_dense_column (data_df : criteo_df F) dense j column :
  scale_dense data_df = Some dense ->
  nth_error (I data_df) j = Some column ->
  exists scaled params,
    nth_error dense j = Some scaled /\
    MinMaxScaler.fit (fillna (of_int 0) column) = Some params /\
    scaled = map (MinMaxScaler.transform params) (fillna (of_int 0) column).
Proof.
  intros E Hc. apply mapM_Forall2 in E.
  assert (Hc' : nth_error (map (fillna (of_int 0)) (I data_df)) j
                = Some (fillna (of_int 0) column))
    by (now rewrite nth_error_map, Hc).
  destruct (Forall2_nth_error _ _ _ E j _ Hc') as (scaled & Hs & Es).
  unfold MinMaxScaler.fit_transform_column in Es.
  apply bind_Some in Es as (params & Ep & [= <-]). eauto.
Qed.

(** C7: a missing cell of a sparse column is filled with ["-1"] before
    the encoder is fitted and receives the id the table of that column
    gives to ["-1"]; a missing cell of a dense column is filled with [0]
    before the scaler is fitted and its output is the scaling of [0]. *)
Theorem missing_values_imputed (data_df : criteo_df F) sparse dense :
  encode_sparse data_df = Some sparse ->
  scale_dense data_df = Some dense ->
  (forall j column, nth_error (C data_df) j = Some column ->
     exists ids,
       nth_error sparse j = Some ids /\
       forall i, nth_error column i = Some None ->
         nth_error (fillna "-1"%string column) i = Some "-1"%string /\
         exists id,
           index_of String_as_OT.compare "-1"%string
             (LabelEncoder.fit (fillna "-1"%string column)) = Some id /\
           nth_error ids i = Some id) /\
  (forall j column, nth_error (I data_df) j = Some column ->
     exists scaled params,
       nth_error dense j = Some scaled /\
       MinMaxScaler.fit (fillna (of_int 0) column) = Some params /\
       forall i, nth_error column i = Some None ->
         nth_error (fillna (of_int 0) column) i = Some (of_int 0) /\
         nth_error scaled i =
         Some (MinMaxScaler.transform params (of_int 0))).
Proof.
  intros Es Ed. split.
  - intros j column Hc.
    destruct (encode_sparse_column _ _ _ _ Es Hc) as (ids & Hids & Eids).
    exists ids. split; [exact Hids|]. intros i Hi.
    assert (Hv : nth_error (fillna "-1"%string column) i = Some "-1"%string)
      by (now rewrite fillna_nth_error, Hi).
    split; [exact Hv|].
    pose proof (fit_transform_lookup _ _ _ _ Eids Hv) as Hl.
    pose proof (fit_transform_rank _ _ _ _ Eids Hv) as Hr.
    rewrite Hr in Hl. eauto.
  - intros j column Hc.
    destruct (scale_dense_column _ _ _ _ Ed Hc)
      as (scaled & params & Hs & Ep & ->).
    eexists; exists params. split; [exact Hs|]. split; [exact Ep|].
    intros i Hi. split.
    + now rewrite fillna_nth_error, Hi.
    + now rewrite nth_error_map, fillna_nth_error, Hi.
Qed.
End CriteoDense.

(** ** [train_test_split] *)

Lemma slice_index_range len i : 0 <= len -> 0 <= slice_index len i <= len.
Proof. unfold slice_index. destruct (i <? 0) eqn:E; lia. Qed.

Lemma firstn_In {A : Type} (l : list A) n x : In x (firstn n l) -> In x l.
Proof.
  intros Hx. rewrite <- (firstn_skipn n l). apply in_or_app. now left.
Qed.

Lemma skipn_In {A : Type} (l : list A) n x : In x (skipn n l) -> In x l.
Proof.
  intros Hx. rewrite <- (firstn_skipn n l). apply in_or_app. now right.
Qed.

Lemma py_slice_incl {A : Type} (l : list A) a b x :
  In x (py_slice l a b) -> In x l.
Proof.
  unfold py_slice. intros Hx. eapply skipn_In, firstn_In, Hx.
Qed.

(** [l[:k]] and [l[k:len(l)]] cut [l] in two, whatever the integer [k]. *)
Lemma py_slice_cut {A : Type} (l : list A) k :
  py_slice l 0 k ++ py_slice l k (Z.of_nat (List.length l)) = l.
Proof.
  unfold py_slice. set (len := Z.of_nat (List.length l)).
  assert (Hlen : 0 <= len) by lia.
  pose proof (slice_index_range len k Hlen) as Hk.
  replace (slice_index len 0) with 0 by (unfold slice_index; simpl; lia).
  replace (slice_index len len) with len
    by (unfold slice_index; destruct (len <? 0) eqn:E; lia).
  rewrite Z.sub_0_r. simpl skipn.
  rewrite (firstn_all2 (n := Z.to_nat (len - slice_index len k))).
  - apply firstn_skipn.
  - rewrite length_skipn. lia.
Qed.

Section SplitFacts.
Context {F : Type} `{Number F}.

Lemma train_test_split_cut perm n test_size ind_train ind_test :
  List.length perm = n ->
  train_test_split perm n test_size = Some (ind_train, ind_test) ->
  ind_test ++ ind_train = perm.
Proof.
  intros Hn E. unfold train_test_split in E.
  apply bind_Some in E as ((n_train & n_test) & Ev & [= <- <-]).
  unfold validate_shuffle_split in Ev.
  destruct (_ || _); [discriminate|].
  apply bind_Some in Ev as (k & _ & Ev).
  destruct (_ <? _); [discriminate|]. destruct (_ =? _); [discriminate|].
  injection Ev as <- <-.
  replace (k + (Z.of_nat n - k)) with (Z.of_nat (List.length perm)) by lia.
  apply py_slice_cut.
Qed.

Lemma train_test_split_Permutation perm n test_size ind_train ind_test :
  Permutation perm (seq 0 n) ->
  train_test_split perm n test_size = Some (ind_train, ind_test) ->
  Permutation (ind_train ++ ind_test) (seq 0 n).
Proof.
  intros Hp E.
  assert (Hn : List.length perm = n)
    by (now rewrite (Permutation_length Hp), length_seq).
  rewrite <- (train_test_split_cut _ _ _ _ _ Hn E) in Hp.
  now rewrite Permutation_app_comm.
Qed.
End SplitFacts.

(** ** The CTR builder *)

Lemma astype_int32_small z : - 2 ^ 31 <= z < 2 ^ 31 -> astype_int32 z = z.
Proof. intros Hz. unfold astype_int32. rewrite Z.mod_small; lia. Qed.

Lemma values_In {A : Type} (d : A) columns index r :
  In r (values d columns index) ->
  exists i, In i index /\ r = map (fun column => nth i column d) columns.
Proof.
  unfold values. rewrite in_map_iff. intros (i & <- & Hi). eauto.
Qed.

Lemma get_chunk_wf {F : Type} (sample_num : nat) (df : criteo_df F) :
  criteo_wf df -> criteo_wf (get_chunk sample_num df).
Proof.
  intros (HI & HC & HIl & HCl). unfold criteo_wf, get_chunk; simpl.
  rewrite !length_map, !Forall_map. repeat split; try assumption.
  - eapply Forall_impl; [|exact HIl]. simpl. intros col E.
    now rewrite !length_firstn, E.
  - eapply Forall_impl; [|exact HCl]. simpl. intros col E.
    now rewrite !length_firstn, E.
Qed.

Lemma get_chunk_rows {F : Type} (sample_num : nat) (df : criteo_df F) :
  (List.length (label (get_chunk sample_num df)) <= List.length (label df))%nat.
Proof. simpl. rewrite length_firstn. lia. Qed.

Section CriteoBuilder.
Context {F : Type} `{Number F}.
Variable permutation : nat -> nat -> list nat.
Hypothesis permutation_spec :
  forall k n, Permutation (permutation k n) (seq 0 n).

Variables (file : criteo_df F) (embed_dim : Z) (read_part : bool).
Variables (sample_num : nat) (test_size : F).

Let data_df := if read_part then get_chunk sample_num file else file.
Let n := List.length (label data_df).

Lemma create_criteo_dataset_inv fc train test :
  create_criteo_dataset permutation file embed_dim read_part sample_num
    test_size = Some (fc, train, test) ->
  exists sparse dense ind_train ind_test,
    encode_sparse data_df = Some sparse /\
    scale_dense data_df = Some dense /\
    train_test_split (permutation 0%nat n) n test_size
      = Some (ind_train, ind_test) /\
    train = criteo_part (label data_df) dense sparse ind_train /\
    test = criteo_part (label data_df) dense sparse ind_test.
Proof.
  unfold create_criteo_dataset. fold data_df. fold n. intros E.
  apply bind_Some in E as (sparse & Es & E).
  apply bind_Some in E as (dense & Ed & E).
  apply bind_Some in E as ((ind_train & ind_test) & Et & [= _ <- <-]).
  exists sparse, dense, ind_train, ind_test. auto.
Qed.

(** C6: the rows of the train and of the test partition are taken at
    row positions that together are the positions of the rows read, each
    once: no position is in both, and the row counts add up to the
    number of rows read. *)
Theorem criteo_split_partitions fc train test :
  create_criteo_dataset permutation file embed_dim read_part sample_num
    test_size = Some (fc, train, test) ->
  exists sparse dense ind_train ind_test,
    train = criteo_part (label data_df) dense sparse ind_train /\
    test = criteo_part (label data_df) dense sparse ind_test /\
    Permutation (ind_train ++ ind_test) (seq 0 n) /\
    (forall i, In i ind_train -> ~ In i ind_test) /\
    (List.length (X_dense train) + List.length (X_dense test) = n)%nat /\
    (List.length (X_sparse train) + List.length (X_sparse test) = n)%nat /\
    (List.length (y train) + List.length (y test) = n)%nat.
Proof.
  intros E.
  destruct (create_criteo_dataset_inv _ _ _ E)
    as (sparse & dense & ind_train & ind_test & _ & _ & Et & -> & ->).
  pose proof (train_test_split_Permutation _ _ _ _ _
                (permutation_spec 0%nat n) Et) as Hp.
  assert (Hl : (List.length ind_train + List.length ind_test = n)%nat)
    by (now rewrite <- length_app, (Permutation_length Hp), length_seq).
  exists sparse, dense, ind_train, ind_test.
  repeat split; try reflexivity; try assumption.
  - intros i Hi Hi'.
    assert (Hnd : NoDup (ind_train ++ ind_test))
      by (eapply Permutation_NoDup; [symmetry; exact Hp | apply seq_NoDup]).
    apply NoDup_app_remove_l in Hnd as Hnd2.
    revert Hnd Hi Hi'. clear. induction ind_train as [|a l IH]; simpl.
    + contradiction.
    + intros Hnd [->|Hi] Hi'; inversion Hnd as [|? ? Hni Hnd']; subst.
      * apply Hni, in_or_app. now right.
      * now apply IH.
  - simpl. unfold values. now rewrite !length_map.
  - simpl. unfold values. now rewrite !length_map.
  - simpl. unfold series_values. now rewrite !length_map.
Qed.

Hypothesis file_wf : criteo_wf file.
Hypothesis file_rows : Z.of_nat (List.length (label file)) <= 2 ^ 31.

Lemma data_df_wf : criteo_wf data_df.
Proof. unfold data_df. destruct read_part; [now apply get_chunk_wf | exact file_wf]. Qed.

Lemma data_df_rows : Z.of_nat n <= 2 ^ 31.
Proof.
  unfold n, data_df. destruct read_part; [|exact file_rows].
  pose proof (get_chunk_rows sample_num file). lia.
Qed.

(** C1: in both partitions the entry of a row for the sparse column
    [j] is an integer between [0] and [d - 1], [d] being the number of
    distinct values of that column once imputed; and the encoded column
    is the same in any table with the same column [j], whatever its
    other columns are. *)
Theorem sparse_ids_in_range fc train test :
  create_criteo_dataset permutation file embed_dim read_part sample_num
    test_size = Some (fc, train, test) ->
  (forall j column, nth_error (C data_df) j = Some column ->
     forall r, In r (X_sparse train ++ X_sparse test) ->
       exists id,
         nth_error r j = Some id /\
         0 <= id <=
           Z.of_nat (List.length
                       (nodup string_dec (fillna "-1"%string column))) - 1) /\
  (forall sparse (other : criteo_df F) sparse' j,
     encode_sparse data_df = Some sparse ->
     encode_sparse other = Some sparse' ->
     nth_error (C other) j = nth_error (C data_df) j ->
     nth_error sparse' j = nth_error sparse j).
Proof.
  intros E. split.
  - destruct (create_criteo_dataset_inv _ _ _ E)
      as (sparse & dense & ind_train & ind_test & Es & _ & Et & -> & ->).
    pose proof (train_test_split_Permutation _ _ _ _ _
                  (permutation_spec 0%nat n) Et) as Hp.
    intros j column Hc r Hr.
    destruct (encode_sparse_column _ _ _ _ Es Hc) as (ids & Hids & Eids).
    assert (Hlen : List.length ids = n).
    { rewrite (fit_transform_length _ _ Eids), fillna_length.
      destruct data_df_wf as (_ & _ & _ & HCl).
      rewrite Forall_forall in HCl. apply HCl. eapply nth_error_In, Hc. }
    assert (Hr' : exists i, In i (ind_train ++ ind_test) /\
              r = map (fun id => astype_int32 (Z.of_nat id))
                      (map (fun col => nth i col 0%nat) sparse)).
    { simpl in Hr. rewrite <- map_app in Hr. apply in_map_iff in Hr as (r0 & <- & Hr0).
      unfold values in Hr0. rewrite <- map_app in Hr0.
      apply in_map_iff in Hr0 as (i & <- & Hi). eauto. }
    destruct Hr' as (i & Hi & ->).
    assert (Hin : (i < n)%nat).
    { eapply Permutation_in in Hi; [|exact Hp]. apply in_seq in Hi. lia. }
    exists (astype_int32 (Z.of_nat (nth i ids 0%nat))). split.
    + now rewrite !nth_error_map, Hids.
    + assert (Hb := fit_transform_bound _ _ (nth i ids 0%nat) Eids).
      specialize (Hb ltac:(apply nth_In; lia)).
      assert (Hd : (List.length (nodup string_dec (fillna "-1"%string column))
                    <= n)%nat).
      { rewrite <- Hlen, (fit_transform_length _ _ Eids).
        apply NoDup_incl_length; [apply NoDup_nodup|].
        intros x Hx. now apply nodup_In in Hx. }
      pose proof data_df_rows. rewrite astype_int32_small; lia.
  - intros sparse other sparse' j Es Es' Hj.
    destruct (nth_error (C data_df) j) as [column|] eqn:Hc.
    + destruct (encode_sparse_column _ _ _ _ Es Hc) as (ids & -> & Eids).
      destruct (encode_sparse_column _ _ _ _ Es' Hj) as (ids' & -> & Eids').
      congruence.
    + apply mapM_Forall2, Forall2_length in Es, Es'.
      apply nth_error_None in Hc, Hj.
      transitivity (@None (list nat)); [|symmetry];
        apply nth_error_None; lia.
Qed.
End CriteoBuilder.


(** ** [MinMaxScaler] in exact arithmetic *)

Section ExactScaling.
Local Open Scope Q_scope.






End ExactScaling.

Section CriteoDenseExact.
Local Open Scope Q_scope.
Variable permutation : nat -> nat -> list nat.
Hypothesis permutation_spec :
  forall k n, Permutation (permutation k n) (seq 0 n).

Variables (file : criteo_df Q) (embed_dim : Z) (read_part : bool).
Variables (sample_num : nat) (test_size : Q).
Hypothesis file_wf : criteo_wf file.

Let data_df := if read_part then get_chunk sample_num file else file.

End CriteoDenseExact.

(** ** Lists: indices, draws and per-key slices *)

Lemma with_index_snd {A : Type} (rows : list A) :
  map snd (with_index rows) = rows.
Proof.
  unfold with_index. generalize 0%nat.
  induction rows as [|a l IH]; intros s; simpl; [reflexivity|].
  now rewrite IH.
Qed.

Lemma with_index_fst {A : Type} (rows : list A) :
  map fst (with_index rows) = seq 0 (List.length rows).
Proof.
  unfold with_index. generalize 0%nat.
  induction rows as [|a l IH]; intros s; simpl; [reflexivity|].
  now rewrite IH.
Qed.

Lemma NoDup_map_inv' {A B : Type} (f : A -> B) (l : list A) :
  NoDup (map f l) -> NoDup l.
Proof.
  induction l as [|a l IH]; simpl; intros Hnd; [constructor|].
  inversion Hnd as [|? ? Hni Hnd']; subst. constructor; [|now apply IH].
  intros Hin. apply Hni. now apply in_map.
Qed.

Lemma with_index_NoDup {A : Type} (rows : list A) : NoDup (with_index rows).
Proof.
  apply (NoDup_map_inv' fst). rewrite with_index_fst. apply seq_NoDup.
Qed.

(** Two rows of an indexed frame with the same index are the same row. *)
Lemma with_index_inj {A : Type} (rows : list A) r r' :
  In r (with_index rows) -> In r' (with_index rows) -> fst r = fst r' -> r = r'.
Proof.
  assert (G : forall (l : list (nat * A)), NoDup (map fst l) ->
            In r l -> In r' l -> fst r = fst r' -> r = r').
  { induction l as [|a l IH]; simpl; [contradiction|].
    intros Hnd [->|Hr] [->|Hr'] E; inversion Hnd as [|? ? Hni Hnd']; subst;
      try reflexivity.
    - exfalso. apply Hni. rewrite E. now apply in_map.
    - exfalso. apply Hni. rewrite <- E. now apply in_map.
    - now apply IH. }
  apply G. rewrite with_index_fst. apply seq_NoDup.
Qed.

Lemma filter_flat_map {A B : Type} (p : B -> bool) (f : A -> list B) l :
  filter p (flat_map f l) = flat_map (fun i => filter p (f i)) l.
Proof.
  induction l as [|a l IH]; simpl; [reflexivity|].
  now rewrite filter_app, IH.
Qed.

Lemma flat_map_nil {A B : Type} (f : A -> list B) l :
  (forall i, In i l -> f i = []) -> flat_map f l = [].
Proof.
  induction l as [|a l IH]; intros Hf; simpl; [reflexivity|].
  rewrite (Hf a (or_introl eq_refl)). apply IH. intros; apply Hf; now right.
Qed.

(** Over distinct keys, the slices that are empty off the key [u] add up
    to the slice of [u]. *)
Lemma flat_map_single {B : Type} (f : Z -> list B) (u : Z) l :
  NoDup l -> (forall i, In i l -> i <> u -> f i = []) ->
  flat_map f l = if in_dec Z.eq_dec u l then f u else [].
Proof.
  induction l as [|a l IH]; intros Hnd Hf; [reflexivity|].
  inversion Hnd as [|? ? Hni Hnd']; subst. simpl flat_map.
  rewrite IH; [|exact Hnd' | intros; apply Hf; [now right | assumption]].
  destruct (Z.eq_dec a u) as [->|Hne].
  - destruct (in_dec Z.eq_dec u (u :: l)) as [_|Hn]; [|exfalso; apply Hn; now left].
    destruct (in_dec Z.eq_dec u l); [contradiction | apply app_nil_r].
  - rewrite (Hf a (or_introl eq_refl) Hne). simpl app.
    destruct (in_dec Z.eq_dec u l) as [Hi|Hn];
      destruct (in_dec Z.eq_dec u (a :: l)) as [Hi'|Hn']; try reflexivity.
    + exfalso. apply Hn'. now right.
    + destruct Hi' as [E|Hi']; [congruence | contradiction].
Qed.

Lemma filter_id {A : Type} (p : A -> bool) (l : list A) :
  (forall x, In x l -> p x = true) -> filter p l = l.
Proof.
  induction l as [|a l IH]; intros Hp; simpl; [reflexivity|].
  rewrite (Hp a (or_introl eq_refl)). f_equal. apply IH. intros; apply Hp; now right.
Qed.

(** A test that holds on the first [k] elements and fails on the others
    keeps the first [k]. *)
Lemma filter_firstn {A : Type} (p : A -> bool) (l : list A) k :
  (forall x, In x (firstn k l) -> p x = true) ->
  (forall x, In x (skipn k l) -> p x = false) ->
  filter p l = firstn k l.
Proof.
  intros Ht Hf. rewrite <- (firstn_skipn k l) at 1.
  rewrite filter_app, (filter_id _ _ Ht), (filter_all_false _ _ Hf).
  apply app_nil_r.
Qed.

Lemma NoDup_skipn {A : Type} (l : list A) k : NoDup l -> NoDup (skipn k l).
Proof.
  intros Hnd. rewrite <- (firstn_skipn k l) in Hnd.
  now apply NoDup_app_remove_l in Hnd.
Qed.

Lemma NoDup_firstn_skipn {A : Type} (l : list A) k x :
  NoDup l -> In x (firstn k l) -> ~ In x (skipn k l).
Proof.
  intros Hnd. rewrite <- (firstn_skipn k l) in Hnd. revert Hnd.
  generalize (firstn k l) (skipn k l). intros l1 l2.
  induction l1 as [|a l1 IH]; simpl; [contradiction|].
  intros Hnd [->|Hx]; inversion Hnd as [|? ? Hni Hnd']; subst.
  - intros Hx2. apply Hni, in_or_app. now right.
  - now apply IH.
Qed.

Lemma NoDup_flat_map {A B : Type} (f : A -> list B) l :
  NoDup l -> (forall i, In i l -> NoDup (f i)) ->
  (forall i j x, In i l -> In j l -> In x (f i) -> In x (f j) -> i = j) ->
  NoDup (flat_map f l).
Proof.
  induction l as [|a l IH]; intros Hnd Hf Hd; simpl; [constructor|].
  inversion Hnd as [|? ? Hni Hnd']; subst. apply NoDup_app.
  - apply Hf. now left.
  - apply IH; [exact Hnd' | intros; apply Hf; now right|].
    intros i j x Hi Hj. apply Hd; now right.
  - intros x Hx Hin. apply in_flat_map in Hin as (j & Hj & Hxj).
    apply Hni. rewrite (Hd a j x); [exact Hj | now left | now right | exact Hx | exact Hxj].
Qed.

Lemma filter_length_Permutation {A : Type} (p : A -> bool) (l l' : list A) :
  Permutation l l' -> List.length (filter p l) = List.length (filter p l').
Proof.
  induction 1 as [| x l l' _ IH | x y l | l l' l'' _ IH1 _ IH2]; simpl.
  - reflexivity.
  - destruct (p x); simpl; now rewrite IH.
  - destruct (p x), (p y); reflexivity.
  - now rewrite IH1.
Qed.

Lemma take_rows_seq {A : Type} (pre rows : list A) :
  take_rows (pre ++ rows) (seq (List.length pre) (List.length rows)) = rows.
Proof.
  revert pre. induction rows as [|a l IH]; intros pre; simpl; [reflexivity|].
  rewrite nth_error_app2, Nat.sub_diag by lia. simpl. f_equal.
  specialize (IH (pre ++ [a])).
  rewrite <- app_assoc, length_app in IH. simpl in IH.
  now rewrite Nat.add_1_r in IH.
Qed.

(** Drawing the rows in the order of a permutation of their positions
    gives the same rows, each once. *)
Lemma sample_Permutation {A : Type} (perm : list nat) (rows : list A) :
  Permutation perm (seq 0 (List.length rows)) ->
  Permutation (sample perm rows) rows.
Proof.
  intros Hp. unfold sample, take_rows.
  rewrite (Permutation_flat_map _ Hp).
  change (Permutation (take_rows ([] ++ rows)
                         (seq (List.length (@nil A)) (List.length rows))) rows).
  now rewrite take_rows_seq.
Qed.

(** ** The per-user split of the rating builder *)

Section RatingSplit.
Variable data_df : list scored_row.

Let user := fun r : nat * scored_row => UserId (row (snd r)).
Let D := with_index data_df.
Let U := fun u => user_rows user u D.
Let k := fun u => train_count (watch_count data_df u).

Lemma user_rows_with_index u :
  map snd (U u) = user_rows (fun r => UserId (row r)) u data_df.
Proof.
  unfold U, D, user_rows, user, with_index. generalize 0%nat.
  induction data_df as [|a l IH]; intros s; simpl; [reflexivity|].
  destruct (UserId (row a) =? u); simpl; now rewrite IH.
Qed.

Lemma watch_count_length u : watch_count data_df u = List.length (U u).
Proof.
  unfold watch_count. now rewrite <- user_rows_with_index, length_map.
Qed.

Lemma user_rows_NoDup u : NoDup (U u).
Proof. apply NoDup_filter, with_index_NoDup. Qed.

Lemma user_rows_In u r : In r (U u) <-> In r D /\ user r = u.
Proof.
  unfold U, user_rows. rewrite filter_In, Z.eqb_eq. reflexivity.
Qed.

Lemma not_in_index u : ~ In u (watch_index data_df) -> U u = [].
Proof.
  intros Hn. apply filter_all_false. intros r Hr.
  apply Z.eqb_neq. intros E. apply Hn. unfold watch_index.
  apply sorted_set_In; [exact Z_order|].
  apply in_map_iff. exists (snd r). split; [exact E|].
  apply (in_map snd) in Hr. fold D in Hr. unfold D in Hr.
  now rewrite with_index_snd in Hr.
Qed.

Variable test : list (nat * scored_row).
Hypothesis test_eq : test_df data_df = Some test.

Lemma test_flat_map :
  test = flat_map (fun i => skipn (k i) (U i)) (watch_index data_df).
Proof.
  unfold test_df in test_eq. fold user D in test_eq.
  destruct (watch_index data_df) as [|i l]; [discriminate|].
  now injection test_eq as <-.
Qed.

(** The rows of a user in the test frame: those from position
    [int(0.8 * count)] on. *)
Lemma test_user_rows u : user_rows user u test = skipn (k u) (U u).
Proof.
  rewrite test_flat_map. unfold user_rows at 1. rewrite filter_flat_map.
  rewrite (flat_map_single _ u).
  - destruct (in_dec Z.eq_dec u (watch_index data_df)) as [_|Hn].
    + apply filter_id. intros r Hr. apply skipn_In in Hr.
      apply user_rows_In in Hr as (_ & ->). apply Z.eqb_refl.
    + rewrite (not_in_index u Hn). now rewrite skipn_nil.
  - apply (sorted_NoDup Z.compare), sorted_set_sorted. exact Z_order.
  - intros i _ Hne. apply filter_all_false. intros r Hr.
    apply skipn_In in Hr. apply user_rows_In in Hr as (_ & E).
    apply Z.eqb_neq. congruence.
Qed.

Lemma test_incl r : In r test -> In r D.
Proof.
  rewrite test_flat_map. intros Hr.
  apply in_flat_map in Hr as (i & _ & Hr).
  apply skipn_In in Hr. now apply user_rows_In in Hr.
Qed.

Lemma test_NoDup : NoDup test.
Proof.
  rewrite test_flat_map. apply NoDup_flat_map.
  - apply (sorted_NoDup Z.compare), sorted_set_sorted. exact Z_order.
  - intros i _. apply NoDup_skipn, user_rows_NoDup.
  - intros i j x _ _ Hi Hj. apply skipn_In, user_rows_In in Hi, Hj.
    destruct Hi as (_ & <-), Hj as (_ & <-). reflexivity.
Qed.

(** Dropping by index label drops exactly the rows of the test frame. *)
Lemma dropped_iff r :
  In r D ->
  (existsb (Nat.eqb (fst r)) (map fst test) = true <-> In r test).
Proof.
  intros Hr. rewrite existsb_exists. split.
  - intros (i & Hi & E). apply Nat.eqb_eq in E. subst i.
    apply in_map_iff in Hi as (t & E & Ht).
    now rewrite (with_index_inj data_df r t Hr (test_incl t Ht) (eq_sym E)).
  - intros Ht. exists (fst r). split; [now apply in_map | apply Nat.eqb_refl].
Qed.

(** The rows of a user in the train frame: the first [int(0.8 * count)]. *)
Lemma train_user_rows u :
  user_rows user u (train_df data_df test) = firstn (k u) (U u).
Proof.
  unfold train_df, user_rows at 1. fold D.
  transitivity
    (filter (fun r => negb (existsb (Nat.eqb (fst r)) (map fst test))) (U u)).
  { unfold U, user_rows. clear. induction D as [|a l IH]; simpl; [reflexivity|].
    destruct (negb _) eqn:E1; simpl; destruct (user a =? u) eqn:E2; simpl;
      rewrite ?E1, ?E2, IH; reflexivity. }
  apply filter_firstn.
  - intros r Hr. apply negb_true_iff.
    destruct (existsb _ _) eqn:E; [|reflexivity]. exfalso.
    assert (HrU : In r (U u)) by (eapply firstn_In, Hr).
    pose proof (proj1 (user_rows_In u r) HrU) as (HrD & Hu).
    apply (dropped_iff r HrD) in E.
    apply (NoDup_firstn_skipn (U u) (k u) r (user_rows_NoDup u) Hr).
    rewrite <- test_user_rows. apply filter_In. split; [exact E|].
    now apply Z.eqb_eq.
  - intros r Hr. apply negb_false_iff.
    assert (HrU : In r (U u)) by (eapply skipn_In, Hr).
    pose proof (proj1 (user_rows_In u r) HrU) as (HrD & Hu).
    apply (dropped_iff r HrD).
    rewrite <- test_user_rows in Hr. now apply filter_In in Hr.
Qed.

(** The two frames hold every row of the table once. *)
Lemma train_test_Permutation :
  Permutation (train_df data_df test ++ test) D.
Proof.
  apply NoDup_Permutation.
  - apply NoDup_app; [apply NoDup_filter, with_index_NoDup | exact test_NoDup |].
    intros r Hr Ht. unfold train_df in Hr. apply filter_In in Hr as (HrD & Hq).
    apply negb_true_iff in Hq. apply (dropped_iff r HrD) in Ht. congruence.
  - apply with_index_NoDup.
  - intros r. rewrite in_app_iff. unfold train_df. rewrite filter_In. split.
    + intros [(Hr & _)|Hr]; [exact Hr | now apply test_incl].
    + intros Hr. destruct (existsb (Nat.eqb (fst r)) (map fst test)) eqn:E.
      * right. now apply (dropped_iff r Hr).
      * left. split; [exact Hr | now apply negb_true_iff].
Qed.
End RatingSplit.

(** ** [int(0.8 * count)] *)

Lemma check_below_spec bound :
  check_below bound = true ->
  forall k, 0 <= k < Z.pos bound -> train_count_agrees k = true.
Proof.
  unfold check_below.
  assert (G : forall p s,
    (snd s = true ->
     forall k, 0 <= k < fst s -> train_count_agrees k = true) ->
    fst (Pos.iter check_step s p) = fst s + Z.pos p /\
    (snd (Pos.iter check_step s p) = true ->
     forall k, 0 <= k < fst (Pos.iter check_step s p) ->
       train_count_agrees k = true)).
  { intros p. induction p as [|p IHp] using Pos.peano_ind; intros s Hs.
    - simpl. split; [reflexivity|]. intros Hok k Hk.
      apply andb_prop in Hok as (Hok & Hc).
      destruct (Z.eq_dec k (fst s)) as [->|]; [exact Hc|].
      apply Hs; [exact Hok | lia].
    - rewrite Pos.iter_succ. destruct (IHp s Hs) as (E & Hs').
      simpl. split; [rewrite E; lia|].
      intros Hok k Hk. apply andb_prop in Hok as (Hok & Hc).
      destruct (Z.eq_dec k (fst (Pos.iter check_step s p))) as [->|];
        [exact Hc|].
      apply Hs'; [exact Hok | lia]. }
  intros Hok k Hk.
  destruct (G bound (0, true)) as (E & Hs); [simpl; intros; lia|].
  apply Hs; [exact Hok|]. rewrite E. simpl. lia.
Qed.

Lemma check_below_100001 : check_below 100001 = true.
Proof. vm_compute. reflexivity. Qed.

(** On every count up to 100000 the binary64 product truncates to the
    exact [floor(4 * count / 5)]. *)
Lemma train_count_exact (count : nat) :
  Z.of_nat count <= 100000 -> train_count count = (4 * count / 5)%nat.
Proof.
  intros Hc. unfold train_count.
  assert (Ha : train_count_agrees (Z.of_nat count) = true)
    by (apply (check_below_spec _ check_below_100001); lia).
  unfold train_count_agrees in Ha. apply Z.eqb_eq in Ha. rewrite Ha.
  apply Nat2Z.inj. rewrite Z2Nat.id by (apply Z.div_pos; lia).
  now rewrite Nat2Z.inj_div, Nat2Z.inj_mul.
Qed.

Lemma train_count_le (count : nat) :
  Z.of_nat count <= 100000 -> (train_count count <= count)%nat.
Proof.
  intros Hc. rewrite (train_count_exact count Hc).
  apply Nat.Div0.div_le_upper_bound. lia.
Qed.

(** ** The rating builder *)

Lemma length_filter_map {A B : Type} (p : B -> bool) (f : A -> B) l :
  List.length (filter p (map f l)) = List.length (filter (fun x => p (f x)) l).
Proof.
  induction l as [|a l IH]; simpl; [reflexivity|].
  destruct (p (f a)); simpl; now rewrite IH.
Qed.

Lemma user_rows_add_avg_score (file : list rating_row) u :
  List.length (user_rows (fun r => UserId (row r)) u (add_avg_score file)) =
  List.length (user_rows UserId u file).
Proof.
  unfold user_rows, add_avg_score. now rewrite length_filter_map.
Qed.

Section RatingBuilder.
Variable permutation : nat -> nat -> list nat.
Hypothesis permutation_spec :
  forall k n, Permutation (permutation k n) (seq 0 n).

Variables (file : list rating_row) (latent_dim : Z) (test_size : float).

Let data_df := add_avg_score file.

Lemma create_explicit_ml_1m_dataset_inv fc train test :
  create_explicit_ml_1m_dataset permutation file latent_dim test_size
    = Some (fc, train, test) ->
  exists test_frame train_rows test_rows,
    test_df data_df = Some test_frame /\
    Permutation train_rows (map snd (train_df data_df test_frame)) /\
    Permutation test_rows (map snd test_frame) /\
    train = rating_part train_rows /\
    test = rating_part test_rows.
Proof.
  unfold create_explicit_ml_1m_dataset. fold data_df. intros E.
  apply bind_Some in E as (T & ET & [= _ <- <-]).
  exists T. do 2 eexists. split; [exact ET|].
  split; [|split; [|split; reflexivity]];
    apply sample_Permutation, permutation_spec.
Qed.

Lemma user_count_rating_part rows u :
  user_count u (X_ids (rating_part rows)) =
  List.length (filter (fun r => UserId (row r) =? u) rows).
Proof. unfold user_count. simpl. now rewrite length_filter_map. Qed.

(** The rows of each user in the two partitions. *)
Lemma user_counts fc train test u :
  create_explicit_ml_1m_dataset permutation file latent_dim test_size
    = Some (fc, train, test) ->
  let count := List.length (user_rows UserId u file) in
  user_count u (X_ids test) = (count - train_count count)%nat /\
  user_count u (X_ids train) = Nat.min (train_count count) count.
Proof.
  intros E count.
  destruct (create_explicit_ml_1m_dataset_inv _ _ _ E)
    as (T & rows_tr & rows_te & ET & Ptr & Pte & -> & ->).
  rewrite !user_count_rating_part.
  rewrite (filter_length_Permutation _ _ _ Ptr).
  rewrite (filter_length_Permutation _ _ _ Pte).
  rewrite !length_filter_map.
  pose proof (test_user_rows data_df T ET u) as Hte.
  pose proof (train_user_rows data_df T ET u) as Htr.
  unfold user_rows in Hte at 1. unfold user_rows in Htr at 1.
  rewrite Hte, Htr, length_skipn, length_firstn.
  rewrite <- (watch_count_length data_df u).
  unfold watch_count, data_df. rewrite user_rows_add_avg_score. fold count.
  split; reflexivity.
Qed.

(** C3: for every user, the test partition holds [count - int(0.8 *
    count)] of the user's rows and the train partition the remaining
    ones, [count] being the number of the user's rows in the file; the
    product is the binary64 one of the code, which on every count up to
    100000 truncates to the exact [floor(4 * count / 5)], so that the
    train partition then holds exactly that many. *)
Theorem per_user_split_counts fc train test u :
  create_explicit_ml_1m_dataset permutation file latent_dim test_size
    = Some (fc, train, test) ->
  let count := List.length (user_rows UserId u file) in
  user_count u (X_ids test) = (count - train_count count)%nat /\
  user_count u (X_ids train) = (count - user_count u (X_ids test))%nat /\
  (Z.of_nat count <= 100000 ->
   train_count count = (4 * count / 5)%nat /\
   user_count u (X_ids train) = (4 * count / 5)%nat).
Proof.
  intros E count. destruct (user_counts _ _ _ u E) as (Hte & Htr).
  fold count in Hte, Htr. rewrite Hte, Htr.
  split; [reflexivity|]. split; [lia|].
  intros Hc. pose proof (train_count_le count Hc).
  rewrite <- (train_count_exact count Hc). split; [reflexivity | lia].
Qed.

(** C4, as the code has it: a user with exactly one row in the file
    has that row in the test partition and no row in the train
    partition. *)
Theorem single_row_user_goes_to_test fc train test u :
  create_explicit_ml_1m_dataset permutation file latent_dim test_size
    = Some (fc, train, test) ->
  List.length (user_rows UserId u file) = 1%nat ->
  user_count u (X_ids test) = 1%nat /\ user_count u (X_ids train) = 0%nat.
Proof.
  intros E H1. destruct (user_counts _ _ _ u E) as (Hte & Htr).
  rewrite H1 in Hte, Htr. rewrite Hte, Htr.
  assert (E0 : train_count 1 = 0%nat) by (vm_compute; reflexivity).
  rewrite E0. split; reflexivity.
Qed.

(** C10: the train and the test frame hold every row of the file
    exactly once between them, so that the positions of their rows are
    disjoint and together all positions, the rows of the two partitions
    are the rows of these frames, and their numbers add up to the number
    of rows of the file. *)
Theorem rating_split_partitions fc train test :
  create_explicit_ml_1m_dataset permutation file latent_dim test_size
    = Some (fc, train, test) ->
  exists train_frame test_frame train_rows test_rows,
    Permutation (map fst train_frame ++ map fst test_frame)
                (seq 0 (List.length file)) /\
    (forall i, In i (map fst train_frame) -> ~ In i (map fst test_frame)) /\
    Permutation (map snd train_frame ++ map snd test_frame)
                (add_avg_score file) /\
    Permutation train_rows (map snd train_frame) /\
    Permutation test_rows (map snd test_frame) /\
    train = rating_part train_rows /\
    test = rating_part test_rows /\
    (List.length (y_rating train) + List.length (y_rating test)
     = List.length file)%nat.
Proof.
  intros E.
  destruct (create_explicit_ml_1m_dataset_inv _ _ _ E)
    as (T & rows_tr & rows_te & ET & Ptr & Pte & -> & ->).
  pose proof (train_test_Permutation data_df T ET) as Hp.
  assert (Hfst : Permutation (map fst (train_df data_df T) ++ map fst T)
                   (seq 0 (List.length file))).
  { rewrite <- map_app, Hp, with_index_fst. unfold data_df, add_avg_score.
    now rewrite length_map. }
  exists (train_df data_df T), T, rows_tr, rows_te.
  split; [exact Hfst|]. split; [|split; [|repeat split; try assumption]].
  - intros i Hi Hi'.
    assert (Hnd : NoDup (map fst (train_df data_df T) ++ map fst T))
      by (eapply Permutation_NoDup; [symmetry; exact Hfst | apply seq_NoDup]).
    revert Hnd Hi Hi'. generalize (map fst (train_df data_df T)) (map fst T).
    clear. intros l1 l2. induction l1 as [|a l1 IH]; simpl; [contradiction|].
    intros Hnd [->|Hi] Hi'; inversion Hnd as [|? ? Hni Hnd']; subst.
    + apply Hni, in_or_app. now right.
    + now apply IH.
  - rewrite <- map_app, Hp. now rewrite with_index_snd.
  - simpl. rewrite !length_map, (Permutation_length Ptr), (Permutation_length Pte).
    rewrite <- length_app, <- map_app, Hp, with_index_snd.
    unfold data_df, add_avg_score. now rewrite length_map.
Qed.
End RatingBuilder.

(** C8: the builder never looks at [test_size]: with the same file,
    latent dimension and draws, any two values of it give the same feature
    columns and the same partitions. *)
Theorem test_size_is_ignored permutation file latent_dim
    (test_size test_size' : float) :
  create_explicit_ml_1m_dataset permutation file latent_dim test_size =
  create_explicit_ml_1m_dataset permutation file latent_dim test_size'.
Proof. reflexivity. Qed.

(* ================================================================== *)
(** * The builders on the sample tables *)

Lemma reversing_spec k n : Permutation (reversing k n) (seq 0 n).
Proof. unfold reversing. symmetry. apply Permutation_rev. Qed.

Lemma no_shuffle_spec k n : Permutation (no_shuffle k n) (seq 0 n).
Proof. apply Permutation_refl. Qed.

Lemma criteo_sample_wf {F : Type} `{Number F} : criteo_wf (criteo_sample (F := F)).
Proof.
  unfold criteo_wf, criteo_sample; simpl.
  repeat split; repeat constructor.
Qed.


(** C4, as the claim has it, fails: the only row of user [7] is in the
    test partition. *)
Lemma single_row_user_test_slice_not_empty :
  exists fc train test,
    create_explicit_ml_1m_dataset no_shuffle ratings_single 4 test_size_0_2
      = Some (fc, train, test) /\
    List.length (user_rows UserId 7 ratings_single) = 1%nat /\
    user_count 7 (X_ids test) <> 0%nat.
Proof.
  destruct (create_explicit_ml_1m_dataset no_shuffle ratings_single 4
              test_size_0_2) as [[[fc train] test]|] eqn:E;
    [|vm_compute in E; discriminate E].
  exists fc, train, test. split; [reflexivity|]. split; [reflexivity|].
  vm_compute in E. injection E as _ _ <-. vm_compute. discriminate.
Qed.

(** C5, on a file that is not in time order: of the five ratings of user
    [1], stored latest first, the test partition receives the last of the
    file, which is the earliest rating, and the latest rating is in the
    train partition. *)
Theorem test_slice_follows_file_order :
  exists fc train test,
    create_explicit_ml_1m_dataset no_shuffle ratings_latest_first 4
      test_size_0_2 = Some (fc, train, test) /\
    X_ids test = [(1, 5)] /\
    X_ids train = [(1, 1); (1, 2); (1, 3); (1, 4)] /\
    (forall r, In r ratings_latest_first ->
       Timestamp (rating 1 5 2 10) <= Timestamp r <= Timestamp (rating 1 1 4 50)).
Proof.
  destruct (create_explicit_ml_1m_dataset no_shuffle ratings_latest_first 4
              test_size_0_2) as [[[fc train] test]|] eqn:E;
    [|vm_compute in E; discriminate E].
  exists fc, train, test. split; [reflexivity|].
  vm_compute in E. injection E as _ <- <-.
  split; [reflexivity|]. split; [reflexivity|].
  intros r Hr. simpl in Hr.
  repeat (destruct Hr as [<-|Hr]; [simpl; lia|]). contradiction.
Qed.

(** The theorems above on the sample tables. *)


Lemma missing_values_imputed_witness :
  exists sparse dense ids scaled params,
    encode_sparse (criteo_sample (F := Q)) = Some sparse /\
    scale_dense (criteo_sample (F := Q)) = Some dense /\
    nth_error sparse 0%nat = Some ids /\
    nth_error ids 1%nat = nth_error ids 4%nat /\
    nth_error dense 0%nat = Some scaled /\
    nth_error scaled 1%nat = Some (MinMaxScaler.transform params (of_int 0)).
Proof.
  destruct (encode_sparse (criteo_sample (F := Q))) as [sparse|] eqn:Es;
    [|vm_compute in Es; discriminate Es].
  destruct (scale_dense (criteo_sample (F := Q))) as [dense|] eqn:Ed;
    [|vm_compute in Ed; discriminate Ed].
  destruct (missing_values_imputed (criteo_sample (F := Q)) sparse dense Es Ed)
    as (Hs & Hd).
  destruct (Hs 0%nat criteo_sample_C1 eq_refl) as (ids & Hids & Hmiss).
  destruct (Hd 0%nat criteo_sample_I1 eq_refl)
    as (scaled & params & Hscaled & _ & Hzero).
  destruct (Hmiss 1%nat eq_refl) as (_ & id & Hid & Hnth).
  destruct (Hzero 1%nat eq_refl) as (_ & Hv).
  exists sparse, dense, ids, scaled, params.
  repeat split; try assumption.
  rewrite Hnth, <- Hid. symmetry.
  apply (fit_transform_lookup (fillna "-1"%string criteo_sample_C1) ids 4%nat);
    [|reflexivity].
  destruct (encode_sparse_column _ _ _ _ Es (eq_refl : nth_error
              (C (criteo_sample (F := Q))) 0%nat = Some criteo_sample_C1))
    as (ids' & Hids' & Eids).
  congruence.
Defined.

Lemma criteo_split_partitions_witness :
  (forall k n, Permutation (reversing k n) (seq 0 n)) /\
  exists fc train test,
    create_criteo_dataset reversing (criteo_sample (F := float)) 8 false 0%nat
      test_size_0_2 = Some (fc, train, test) /\
    (List.length (y train) + List.length (y test) = 5)%nat.
Proof.
  split; [exact reversing_spec|].
  destruct (create_criteo_dataset reversing (criteo_sample (F := float)) 8
              false 0%nat test_size_0_2) as [[[fc train] test]|] eqn:E;
    [|vm_compute in E; discriminate E].
  exists fc, train, test. split; [reflexivity|].
  destruct (criteo_split_partitions reversing reversing_spec _ _ _ _ _ _ _ _ E)
    as (_ & _ & _ & _ & _ & _ & _ & _ & _ & _ & Hy).
  exact Hy.
Defined.

Lemma sparse_ids_in_range_witness :
  (forall k n, Permutation (reversing k n) (seq 0 n)) /\
  criteo_wf (criteo_sample (F := float)) /\
  Z.of_nat (List.length (label (criteo_sample (F := float)))) <= 2 ^ 31 /\
  exists fc train test,
    create_criteo_dataset reversing (criteo_sample (F := float)) 8 false 0%nat
      test_size_0_2 = Some (fc, train, test) /\
    forall r, In r (X_sparse train ++ X_sparse test) ->
      exists id, nth_error r 0%nat = Some id /\ 0 <= id <= 3 - 1.
Proof.
  split; [exact reversing_spec|]. split; [exact criteo_sample_wf|].
  split; [vm_compute; discriminate|].
  destruct (create_criteo_dataset reversing (criteo_sample (F := float)) 8
              false 0%nat test_size_0_2) as [[[fc train] test]|] eqn:E;
    [|vm_compute in E; discriminate E].
  exists fc, train, test. split; [reflexivity|].
  destruct (sparse_ids_in_range reversing reversing_spec
              (criteo_sample (F := float)) 8 false 0%nat test_size_0_2
              criteo_sample_wf ltac:(vm_compute; discriminate) fc train test E)
    as (Hrange & _).
  exact (Hrange 0%nat criteo_sample_C1 eq_refl).
Defined.


Lemma per_user_split_counts_witness :
  (forall k n, Permutation (reversing k n) (seq 0 n)) /\
  exists fc train test,
    create_explicit_ml_1m_dataset reversing ratings_sample 4 test_size_0_2
      = Some (fc, train, test) /\
    List.length (user_rows UserId 1 ratings_sample) = 5%nat /\
    user_count 1 (X_ids test) = (5 - train_count 5)%nat /\
    user_count 1 (X_ids train) = (5 - user_count 1 (X_ids test))%nat /\
    train_count 5 = 4%nat.
Proof.
  split; [exact reversing_spec|].
  destruct (create_explicit_ml_1m_dataset reversing ratings_sample 4
              test_size_0_2) as [[[fc train] test]|] eqn:E;
    [|vm_compute in E; discriminate E].
  exists fc, train, test. split; [reflexivity|]. split; [reflexivity|].
  destruct (per_user_split_counts reversing reversing_spec ratings_sample 4
              test_size_0_2 fc train test 1 E) as (Hte & Htr & Hex).
  split; [exact Hte|]. split; [exact Htr|].
  exact (proj1 (Hex ltac:(vm_compute; discriminate))).
Defined.

Lemma single_row_user_goes_to_test_witness :
  (forall k n, Permutation (reversing k n) (seq 0 n)) /\
  exists fc train test,
    create_explicit_ml_1m_dataset reversing ratings_single 4 test_size_0_2
      = Some (fc, train, test) /\
    List.length (user_rows UserId 7 ratings_single) = 1%nat /\
    user_count 7 (X_ids test) = 1%nat /\ user_count 7 (X_ids train) = 0%nat.
Proof.
  split; [exact reversing_spec|].
  destruct (create_explicit_ml_1m_dataset reversing ratings_single 4
              test_size_0_2) as [[[fc train] test]|] eqn:E;
    [|vm_compute in E; discriminate E].
  exists fc, train, test. split; [reflexivity|]. split; [reflexivity|].
  exact (single_row_user_goes_to_test reversing reversing_spec ratings_single
           4 test_size_0_2 fc train test 7 E eq_refl).
Defined.

Lemma rating_split_partitions_witness :
  (forall k n, Permutation (reversing k n) (seq 0 n)) /\
  exists fc train test,
    create_explicit_ml_1m_dataset reversing ratings_sample 4 test_size_0_2
      = Some (fc, train, test) /\
    (List.length (y_rating train) + List.length (y_rating test) = 8)%nat.
Proof.
  split; [exact reversing_spec|].
  destruct (create_explicit_ml_1m_dataset reversing ratings_sample 4
              test_size_0_2) as [[[fc train] test]|] eqn:E;
    [|vm_compute in E; discriminate E].
  exists fc, train, test. split; [reflexivity|].
  destruct (rating_split_partitions reversing reversing_spec ratings_sample 4
              test_size_0_2 fc train test E)
    as (trf & tef & trr & ter & _ & _ & _ & _ & _ & _ & _ & Hlen).
  exact Hlen.
Defined.

(* ================================================================== *)
(** * Further properties of the rating builder *)

Lemma filter_Permutation {A : Type} (p : A -> bool) (l l' : list A) :
  Permutation l l' -> Permutation (filter p l) (filter p l').
Proof.
  induction 1 as [| x l l' _ IH | x y l | l l' l'' _ IH1 _ IH2]; simpl.
  - constructor.
  - destruct (p x); [now constructor | exact IH].
  - destruct (p x), (p y); try apply Permutation_refl. apply perm_swap.
  - now transitivity (filter p l').
Qed.


Lemma combine_map3 {A B C D : Type} (f : A -> B) (g : A -> C) (h : A -> D) l :
  combine (combine (map f l) (map g l)) (map h l) =
  map (fun x => (f x, g x, h x)) l.
Proof. induction l as [|a l IH]; simpl; [reflexivity | now rewrite IH]. Qed.

Lemma rating_rows_part rows :
  rating_rows (rating_part rows) =
  map (fun r => (avg_score r, (UserId (row r), MovieId (row r)),
                 astype_int32 (Rating (row r)))) rows.
Proof. unfold rating_rows, rating_part. simpl. apply combine_map3. Qed.

(** On rows of the scored table the output triple is [encode_rating]. *)
Lemma rating_rows_encode (file : list rating_row) rows :
  (forall r, In r rows -> In r (add_avg_score file)) ->
  rating_rows (rating_part rows) = map (encode_rating file) (map row rows).
Proof.
  intros Hin. rewrite rating_rows_part, map_map. apply map_ext_in.
  intros r Hr. apply Hin in Hr. unfold add_avg_score in Hr.
  apply in_map_iff in Hr as (r0 & <- & _). reflexivity.
Qed.

Lemma add_avg_score_row (file : list rating_row) :
  map row (add_avg_score file) = file.
Proof.
  unfold add_avg_score. rewrite map_map. simpl. apply map_id.
Qed.



Section RatingBuilderMore.
Variable permutation : nat -> nat -> list nat.
Variables (file : list rating_row) (latent_dim : Z) (test_size : float).

Let data_df := add_avg_score file.




End RatingBuilderMore.

Lemma filter_map_comm {A B : Type} (p : B -> bool) (f : A -> B) l :
  filter p (map f l) = map f (filter (fun x => p (f x)) l).
Proof.
  induction l as [|a l IH]; simpl; [reflexivity|].
  destruct (p (f a)); simpl; now rewrite IH.
Qed.

Lemma user_rows_scored (file : list rating_row) u :
  map row (user_rows (fun r => UserId (row r)) u (add_avg_score file)) =
  user_rows UserId u file.
Proof.
  unfold user_rows, add_avg_score.
  rewrite filter_map_comm, map_map. simpl. apply map_id.
Qed.

Section RatingBuilderRows.
Variable permutation : nat -> nat -> list nat.
Hypothesis permutation_spec :
  forall k n, Permutation (permutation k n) (seq 0 n).

Variables (file : list rating_row) (latent_dim : Z) (test_size : float).

Let data_df := add_avg_score file.

(** X4: the split follows the order of the file: for every user the
    train partition holds the encodings of the first [int(0.8 * count)]
    rows of that user in the file and the test partition the encodings
    of the user's other rows, each once and in the order of the draw. *)
Theorem split_keeps_file_order_per_user fc train test u :
  create_explicit_ml_1m_dataset permutation file latent_dim test_size
    = Some (fc, train, test) ->
  let rows := user_rows UserId u file in
  let n_train := train_count (List.length rows) in
  Permutation (filter (fun t => row_user t =? u) (rating_rows train))
              (map (encode_rating file) (firstn n_train rows)) /\
  Permutation (filter (fun t => row_user t =? u) (rating_rows test))
              (map (encode_rating file) (skipn n_train rows)).
Proof.
  intros E rows n_train.
  destruct (create_explicit_ml_1m_dataset_inv permutation permutation_spec
              _ _ _ _ _ _ E) as (T & rows_tr & rows_te & ET & Ptr & Pte & -> & ->).
  fold data_df in ET, Ptr.
  pose proof (test_user_rows data_df T ET u) as Hte.
  pose proof (train_user_rows data_df T ET u) as Htr.
  cbv beta zeta in Hte, Htr.
  assert (Hn : watch_count data_df u = List.length rows).
  { unfold watch_count, rows. now rewrite <- (user_rows_scored file u), length_map. }
  rewrite Hn in Hte, Htr. fold n_train in Hte, Htr.
  assert (HU : map row (map snd
                 (user_rows (fun r => UserId (row (snd r))) u
                            (with_index data_df))) = rows).
  { rewrite (user_rows_with_index data_df u). apply user_rows_scored. }
  assert (G : forall frame rows_out,
    Permutation rows_out (map snd frame) ->
    (forall r, In r frame -> In r (with_index data_df)) ->
    Permutation (filter (fun t => row_user t =? u)
                        (rating_rows (rating_part rows_out)))
                (map (encode_rating file)
                     (map row (map snd
                        (user_rows (fun r => UserId (row (snd r))) u frame))))).
  { intros frame rows_out Hp Hin.
    rewrite (rating_rows_encode file rows_out).
    - rewrite map_map, filter_map_comm.
      rewrite (filter_Permutation _ _ _ Hp).
      unfold user_rows. rewrite filter_map_comm, !map_map. reflexivity.
    - intros r Hr. eapply Permutation_in in Hr; [|exact Hp].
      apply in_map_iff in Hr as (ir & <- & Hir). apply Hin in Hir.
      apply (in_map snd) in Hir. now rewrite with_index_snd in Hir. }
  split.
  - rewrite (G (train_df data_df T) rows_tr Ptr).
    + rewrite Htr, <- !firstn_map, HU. reflexivity.
    + intros r Hr. unfold train_df in Hr. now apply filter_In in Hr.
  - rewrite (G T rows_te Pte).
    + rewrite Hte, <- !skipn_map, HU. reflexivity.
    + intros r. apply (test_incl data_df T ET).
Qed.

(** X5: the two partitions together hold the encoding of every row of
    the file exactly once: user id, movie id, the rating cast to int32
    and the user's mean rating stay together in one output row. *)
Theorem rating_rows_conserved fc train test :
  create_explicit_ml_1m_dataset permutation file latent_dim test_size
    = Some (fc, train, test) ->
  Permutation (rating_rows train ++ rating_rows test)
              (map (encode_rating file) file).
Proof.
  intros E.
  destruct (create_explicit_ml_1m_dataset_inv permutation permutation_spec
              _ _ _ _ _ _ E) as (T & rows_tr & rows_te & ET & Ptr & Pte & -> & ->).
  fold data_df in ET, Ptr.
  pose proof (train_test_Permutation data_df T ET) as Hp.
  apply (Permutation_map snd) in Hp. rewrite with_index_snd, map_app in Hp.
  assert (Hall : Permutation (rows_tr ++ rows_te) data_df)
    by (now rewrite Ptr, Pte).
  assert (Hin : forall r, In r (rows_tr ++ rows_te) -> In r data_df)
    by (intros r Hr; eapply Permutation_in; eassumption).
  rewrite (rating_rows_encode file rows_tr), (rating_rows_encode file rows_te).
  - rewrite <- !map_app, Hall. unfold data_df.
    now rewrite add_avg_score_row.
  - intros r Hr. apply Hin, in_or_app. now right.
  - intros r Hr. apply Hin, in_or_app. now left.
Qed.

(** X6: every user with at least one and at most 100000 rows in the
    file has a row in the test partition, and has a row in the train
    partition exactly when the user has two rows or more. *)
Theorem every_user_is_tested fc train test u :
  create_explicit_ml_1m_dataset permutation file latent_dim test_size
    = Some (fc, train, test) ->
  let count := List.length (user_rows UserId u file) in
  (1 <= count)%nat -> Z.of_nat count <= 100000 ->
  (1 <= user_count u (X_ids test))%nat /\
  ((1 <= user_count u (X_ids train))%nat <-> (2 <= count)%nat).
Proof.
  intros E count H1 Hb.
  destruct (user_counts permutation permutation_spec _ _ _ _ _ _ u E)
    as (Hte & Htr).
  fold count in Hte, Htr. rewrite Hte, Htr, (train_count_exact count Hb).
  assert (Hd : (4 * count / 5 < count)%nat)
    by (apply Nat.Div0.div_lt_upper_bound; lia).
  split; [lia|]. rewrite Nat.min_l by lia. split.
  - intros Hq. destruct (Nat.eq_dec count 1) as [E1|]; [|lia].
    rewrite E1 in Hq. simpl in Hq. lia.
  - intros H2. apply Nat.div_le_lower_bound; lia.
Qed.
End RatingBuilderRows.

(* ================================================================== *)
(** * Further properties of the CTR builder *)

Section IndexFacts.
Context {A : Type} (cmp : A -> A -> comparison) `{!OrderSpec cmp}.

(** Looking an id up in the table gives the value back. *)
Lemma index_of_nth_error v l i :
  index_of cmp v l = Some i -> nth_error l i = Some v.
Proof.
  revert i; induction l as [|c l IH]; intros i; simpl; [discriminate|].
  destruct (cmp v c) eqn:E.
  - intros [= <-]. apply cmp_eq in E. now subst.
  - destruct (index_of cmp v l) as [k|]; simpl; [|discriminate].
    intros [= <-]. now apply IH.
  - destruct (index_of cmp v l) as [k|]; simpl; [|discriminate].
    intros [= <-]. now apply IH.
Qed.

Lemma index_of_nth v l i :
  StronglySorted (lt_of cmp) l -> nth_error l i = Some v ->
  index_of cmp v l = Some i.
Proof.
  intros Hs; revert i; induction Hs as [|c l Hs IH Hc]; intros i Hi.
  - now destruct i.
  - destruct i as [|i]; simpl in *.
    + injection Hi as ->. now rewrite cmp_refl.
    + rewrite Forall_forall in Hc.
      assert (Hlt : cmp c v = Lt) by (eapply Hc, nth_error_In, Hi).
      apply cmp_gt in Hlt. rewrite Hlt. now rewrite (IH i Hi).
Qed.
End IndexFacts.

Lemma nth_error_seq' s n j :
  (j < n)%nat -> nth_error (seq s n) j = Some (s + j)%nat.
Proof.
  revert s j; induction n as [|n IH]; intros s j Hj; [lia|].
  destruct j as [|j]; simpl; [f_equal; lia|].
  rewrite IH by lia. f_equal. lia.
Qed.

Lemma nth_error_combine {A B : Type} (l : list A) (l' : list B) j a b :
  nth_error l j = Some a -> nth_error l' j = Some b ->
  nth_error (combine l l') j = Some (a, b).
Proof.
  revert l' j; induction l as [|x l IH]; intros [|y l'] [|j]; simpl;
    try discriminate.
  - now intros [= ->] [= ->].
  - apply IH.
Qed.

Section CriteoEncoding.
Context {F : Type} `{Number F}.
Variables (data_df : criteo_df F) (sparse : list (list nat)).
Hypothesis sparse_eq : encode_sparse data_df = Some sparse.

(** X7: decoding an id through the fitted classes of its column gives
    back the category of the cell, so that within a column two cells
    carry the same id exactly when their imputed values are equal. *)
Theorem label_encoding_round_trip j column :
  nth_error (C data_df) j = Some column ->
  exists ids,
    nth_error sparse j = Some ids /\
    (forall i v, nth_error (fillna "-1"%string column) i = Some v ->
       exists id,
         nth_error ids i = Some id /\
         nth_error (LabelEncoder.fit (fillna "-1"%string column)) id = Some v) /\
    (forall i i' v v',
       nth_error (fillna "-1"%string column) i = Some v ->
       nth_error (fillna "-1"%string column) i' = Some v' ->
       (nth_error ids i = nth_error ids i' <-> v = v')).
Proof.
  intros Hc.
  destruct (encode_sparse_column _ _ _ _ sparse_eq Hc) as (ids & Hids & Eids).
  exists ids. split; [exact Hids|].
  assert (G : forall i v, nth_error (fillna "-1"%string column) i = Some v ->
            exists id, nth_error ids i = Some id /\
              nth_error (LabelEncoder.fit (fillna "-1"%string column)) id
              = Some v).
  { intros i v Hv. pose proof (fit_transform_lookup _ _ _ _ Eids Hv) as Hl.
    pose proof (fit_transform_rank _ _ _ _ Eids Hv) as Hr.
    rewrite Hr in Hl. eexists. split; [exact Hr|].
    apply (index_of_nth_error String_as_OT.compare). now symmetry. }
  split; [exact G|].
  intros i i' v v' Hv Hv'.
  destruct (G i v Hv) as (id & Hid & Hdec).
  destruct (G i' v' Hv') as (id' & Hid' & Hdec').
  rewrite Hid, Hid'. split.
  - intros [= <-]. congruence.
  - intros <-. rewrite (fit_transform_rank _ _ _ _ Eids Hv) in Hid.
    rewrite (fit_transform_rank _ _ _ _ Eids Hv') in Hid'. congruence.
Qed.

(** X8: the ids of a column leave no gap: with [d] distinct values in
    the imputed column, every id from [0] to [d - 1] is the id of some
    cell, and the encoded column has [d] distinct ids. *)
Theorem label_ids_are_contiguous j column :
  nth_error (C data_df) j = Some column ->
  exists ids,
    nth_error sparse j = Some ids /\
    let d := List.length (nodup string_dec (fillna "-1"%string column)) in
    (forall id, (id < d)%nat <-> In id ids) /\
    n_unique ids = Z.of_nat d.
Proof.
  intros Hc.
  destruct (encode_sparse_column _ _ _ _ sparse_eq Hc) as (ids & Hids & Eids).
  exists ids. split; [exact Hids|]. intros d.
  assert (Hcov : forall id, (id < d)%nat <-> In id ids).
  { intros id. split; [|apply (fit_transform_bound _ _ id Eids)].
    intros Hid. unfold d in Hid.
    rewrite <- (sorted_set_length String_as_OT.compare) in Hid.
    destruct (nth_error (LabelEncoder.fit (fillna "-1"%string column)) id)
      as [v|] eqn:Ev; [|apply nth_error_None in Ev; unfold LabelEncoder.fit in Ev; lia].
    assert (Hv : In v (fillna "-1"%string column)).
    { apply (sorted_set_In String_as_OT.compare). eapply nth_error_In, Ev. }
    apply In_nth_error in Hv as (i & Hi).
    pose proof (fit_transform_lookup _ _ _ _ Eids Hi) as Hl.
    rewrite (index_of_nth String_as_OT.compare v _ id) in Hl;
      [eapply nth_error_In, Hl | apply sorted_set_sorted, string_order | exact Ev]. }
  split; [exact Hcov|].
  unfold n_unique. f_equal.
  transitivity (List.length (seq 0 d)); [|apply length_seq].
  apply Permutation_length, NoDup_Permutation.
  - apply NoDup_nodup.
  - apply seq_NoDup.
  - intros id. rewrite nodup_In, in_seq, <- Hcov. lia.
Qed.
End CriteoEncoding.

Section CriteoBuilderMore.
Context {F : Type} `{Number F}.
Variable permutation : nat -> nat -> list nat.

Variables (file : criteo_df F) (embed_dim : Z) (read_part : bool).
Variables (sample_num : nat) (test_size : F).

Let data_df := if read_part then get_chunk sample_num file else file.
Let n := List.length (label data_df).

(** X9: the feature columns are the thirteen dense descriptors [I1]..
    [I13] and, for every sparse column, a descriptor named [C1]..[C26]
    after its position, with the given embedding dimension and with
    [feat_num] the number of distinct values of the imputed column. *)
Theorem criteo_feature_columns fc train test :
  criteo_wf file ->
  create_criteo_dataset permutation file embed_dim read_part sample_num
    test_size = Some (fc, train, test) ->
  fst fc = map denseFeature dense_features /\
  List.length (fst fc) = 13%nat /\
  List.length (snd fc) = 26%nat /\
  forall j column, nth_error (C data_df) j = Some column ->
    nth_error (snd fc) j =
    Some (sparseFeature ("C" ++ str (S j))
            (Z.of_nat (List.length
                         (nodup string_dec (fillna "-1"%string column))))
            embed_dim).
Proof.
  intros Hwf E.
  assert (Hwf' : criteo_wf data_df)
    by (unfold data_df; destruct read_part; [now apply get_chunk_wf | exact Hwf]).
  unfold create_criteo_dataset in E. fold data_df in E.
  apply bind_Some in E as (sparse & Es & E).
  apply bind_Some in E as (dense & Ed & E).
  apply bind_Some in E as ((ind_train & ind_test) & Et & E).
  apply Some_inj in E.
  pose proof (f_equal (fun x => fst (fst x)) E) as Hfc.
  cbn [fst] in Hfc. subst fc. clear E.
  assert (Hlen : List.length sparse = 26%nat).
  { apply mapM_Forall2, Forall2_length in Es. destruct Hwf' as (_ & HC & _). lia. }
  cbn [fst snd]. split; [reflexivity|]. split; [reflexivity|].
  split; [rewrite length_map, length_combine, Hlen; reflexivity|].
  intros j column Hc.
  destruct (label_ids_are_contiguous data_df sparse Es j column Hc)
    as (ids & Hids & _ & Hu).
  assert (Hj : (j < 26)%nat).
  { rewrite <- Hlen. apply nth_error_Some. congruence. }
  rewrite nth_error_map.
  rewrite (nth_error_combine sparse_features sparse j
             ("C" ++ str (S j))%string ids); [|  | exact Hids].
  - simpl. now rewrite Hu.
  - unfold sparse_features. rewrite nth_error_map, (nth_error_seq' 1 26 j Hj).
    reflexivity.
Qed.


End CriteoBuilderMore.

(** X14: asking for at least as many rows as the file has reads the
    whole file: the result is the one of [read_part=False]. *)
Theorem read_part_beyond_file {F : Type} `{Number F}
    (permutation : nat -> nat -> list nat) (file : criteo_df F)
    (embed_dim : Z) (sample_num : nat) (test_size : F) :
  criteo_wf file ->
  (List.length (label file) <= sample_num)%nat ->
  create_criteo_dataset permutation file embed_dim true sample_num test_size =
  create_criteo_dataset permutation file embed_dim false sample_num test_size.
Proof.
  intros (_ & _ & HIl & HCl) Hs.
  assert (E : get_chunk sample_num file = file).
  { destruct file as [lab Is Cs]. unfold get_chunk; simpl in *. f_equal.
    - now apply firstn_all2.
    - rewrite <- (map_id Is) at 2. apply map_ext_in. intros c Hc.
      rewrite Forall_forall in HIl. apply firstn_all2. rewrite (HIl c Hc). exact Hs.
    - rewrite <- (map_id Cs) at 2. apply map_ext_in. intros c Hc.
      rewrite Forall_forall in HCl. apply firstn_all2. rewrite (HCl c Hc). exact Hs. }
  unfold create_criteo_dataset. now rewrite E.
Qed.

Lemma py_slice_lengths {A : Type} (l : list A) k :
  0 <= k <= Z.of_nat (List.length l) ->
  Z.of_nat (List.length (py_slice l 0 k)) = k /\
  Z.of_nat (List.length (py_slice l k (Z.of_nat (List.length l))))
  = Z.of_nat (List.length l) - k.
Proof.
  intros Hk. unfold py_slice, slice_index.
  set (len := Z.of_nat (List.length l)) in *.
  replace (0 <? 0) with false by reflexivity.
  replace (k <? 0) with false by (symmetry; apply Z.ltb_ge; lia).
  replace (len <? 0) with false by (symmetry; apply Z.ltb_ge; lia).
  rewrite !length_firstn, !length_skipn. subst len. split; lia.
Qed.

Section CriteoSizes.
Context {F : Type} `{Number F}.
Variable permutation : nat -> nat -> list nat.
Hypothesis permutation_spec :
  forall k n, Permutation (permutation k n) (seq 0 n).

Variables (file : criteo_df F) (embed_dim : Z) (read_part : bool).
Variables (sample_num : nat) (test_size : F).

Let data_df := if read_part then get_chunk sample_num file else file.
Let n := List.length (label data_df).

(** The row positions of the two partitions: the first [n_test] entries
    of the draw are the test rows, the others the train rows. *)
Lemma create_criteo_dataset_sizes fc train test :
  create_criteo_dataset permutation file embed_dim read_part sample_num
    test_size = Some (fc, train, test) ->
  exists n_test,
    fceil (fmul test_size (of_int (Z.of_nat n))) = Some n_test /\
    Z.of_nat n - n_test <> 0 /\
    (0 <= n_test <= Z.of_nat n ->
     Z.of_nat (List.length (y test)) = n_test /\
     Z.of_nat (List.length (y train)) = Z.of_nat n - n_test /\
     List.length (X_dense test) = List.length (y test) /\
     List.length (X_sparse test) = List.length (y test) /\
     List.length (X_dense train) = List.length (y train) /\
     List.length (X_sparse train) = List.length (y train)).
Proof.
  intros E.
  destruct (create_criteo_dataset_inv permutation _ _ _ _ _ _ _ _ E)
    as (sparse & dense & ind_train & ind_test & _ & _ & Et & -> & ->).
  fold data_df in Et. fold n in Et.
  unfold train_test_split in Et.
  apply bind_Some in Et as ((n_train & k) & Ev & Et).
  apply Some_inj in Et.
  unfold validate_shuffle_split in Ev.
  destruct (_ || _); [discriminate|].
  apply bind_Some in Ev as (k' & Ek & Ev).
  destruct (_ <? _); [discriminate|].
  destruct (Z.of_nat n - k' =? 0) eqn:E0; [discriminate|].
  apply Some_inj in Ev.
  assert (k' = k /\ n_train = Z.of_nat n - k) as (-> & ->).
  { pose proof (f_equal fst Ev) as H1. pose proof (f_equal snd Ev) as H2.
    simpl in H1, H2. subst. split; reflexivity. }
  exists k. split; [exact Ek|]. split; [now apply Z.eqb_neq|].
  intros Hk.
  assert (Hlen : List.length (permutation 0%nat n) = n)
    by (now rewrite (Permutation_length (permutation_spec 0%nat n)), length_seq).
  replace (k + (Z.of_nat n - k))
    with (Z.of_nat (List.length (permutation 0%nat n))) in Et by lia.
  destruct (py_slice_lengths (permutation 0%nat n) k ltac:(lia)) as (Hte & Htr).
  pose proof (f_equal fst Et) as H1. pose proof (f_equal snd Et) as H2.
  cbn [fst snd] in H1, H2. subst ind_train ind_test.
  simpl. unfold values, series_values. rewrite !length_map.
  repeat split; try reflexivity; try assumption.
  now rewrite Hlen in Htr |- *.
Qed.

(** X12: the test partition has [n_test = ceil(test_size * n)] rows and
    the train partition the other [n - n_test], which are never zero,
    whenever that product lies between [0] and the number [n] of rows
    read; the three arrays of a partition have the same number of rows. *)
Theorem criteo_split_sizes fc train test n_test :
  create_criteo_dataset permutation file embed_dim read_part sample_num
    test_size = Some (fc, train, test) ->
  fceil (fmul test_size (of_int (Z.of_nat n))) = Some n_test ->
  0 <= n_test <= Z.of_nat n ->
  Z.of_nat (List.length (y test)) = n_test /\
  Z.of_nat (List.length (y train)) = Z.of_nat n - n_test /\
  (1 <= List.length (y train))%nat /\
  List.length (X_dense test) = List.length (y test) /\
  List.length (X_sparse test) = List.length (y test) /\
  List.length (X_dense train) = List.length (y train) /\
  List.length (X_sparse train) = List.length (y train).
Proof.
  intros E Ek Hk.
  destruct (create_criteo_dataset_sizes _ _ _ E) as (k & Ek' & Hne & Hs).
  rewrite Ek in Ek'. apply Some_inj in Ek'. subst k.
  destruct (Hs Hk) as (H1 & H2 & H3 & H4 & H5 & H6).
  repeat split; try assumption. lia.
Qed.
End CriteoSizes.


Section CriteoSizesExact.
Local Open Scope Q_scope.
Variable permutation : nat -> nat -> list nat.
Hypothesis permutation_spec :
  forall k n, Permutation (permutation k n) (seq 0 n).

Variables (file : criteo_df Q) (embed_dim : Z) (read_part : bool).
Variables (sample_num : nat) (test_size : Q).

Let data_df := if read_part then get_chunk sample_num file else file.
Let n := List.length (label data_df).

End CriteoSizesExact.



Section CriteoRows.
Context {F : Type} `{Number F}.
Variable permutation : nat -> nat -> list nat.
Hypothesis permutation_spec :
  forall k n, Permutation (permutation k n) (seq 0 n).

Variables (file : criteo_df F) (embed_dim : Z) (read_part : bool).
Variables (sample_num : nat) (test_size : F).
Hypothesis file_wf : criteo_wf file.

Let data_df := if read_part then get_chunk sample_num file else file.

End CriteoRows.

Section CriteoDenseExactMore.
Local Open Scope Q_scope.
Variable permutation : nat -> nat -> list nat.
Hypothesis permutation_spec :
  forall k n, Permutation (permutation k n) (seq 0 n).

Variables (file : criteo_df Q) (embed_dim : Z) (read_part : bool).
Variables (sample_num : nat) (test_size : Q).
Hypothesis file_wf : criteo_wf file.

Let data_df := if read_part then get_chunk sample_num file else file.

End CriteoDenseExactMore.

Section ExactExtremes.
Local Open Scope Q_scope.



End ExactExtremes.

(* ================================================================== *)
(** * The further properties on the sample tables *)



Lemma split_keeps_file_order_per_user_witness :
  (forall k n, Permutation (reversing k n) (seq 0 n)) /\
  exists fc train test,
    create_explicit_ml_1m_dataset reversing ratings_sample 4 test_size_0_2
      = Some (fc, train, test) /\
    Permutation (filter (fun t => row_user t =? 1) (rating_rows test))
                (map (encode_rating ratings_sample) [rating 1 5 2 10]).
Proof.
  split; [exact reversing_spec|].
  destruct (create_explicit_ml_1m_dataset reversing ratings_sample 4
              test_size_0_2) as [[[fc train] test]|] eqn:E;
    [|vm_compute in E; discriminate E].
  exists fc, train, test. split; [reflexivity|].
  exact (proj2 (split_keeps_file_order_per_user reversing reversing_spec
                  ratings_sample 4 test_size_0_2 fc train test 1 E)).
Defined.

Lemma rating_rows_conserved_witness :
  (forall k n, Permutation (reversing k n) (seq 0 n)) /\
  exists fc train test,
    create_explicit_ml_1m_dataset reversing ratings_sample 4 test_size_0_2
      = Some (fc, train, test) /\
    Permutation (rating_rows train ++ rating_rows test)
                (map (encode_rating ratings_sample) ratings_sample).
Proof.
  split; [exact reversing_spec|].
  destruct (create_explicit_ml_1m_dataset reversing ratings_sample 4
              test_size_0_2) as [[[fc train] test]|] eqn:E;
    [|vm_compute in E; discriminate E].
  exists fc, train, test. split; [reflexivity|].
  exact (rating_rows_conserved reversing reversing_spec ratings_sample 4
           test_size_0_2 fc train test E).
Defined.

Lemma every_user_is_tested_witness :
  (forall k n, Permutation (reversing k n) (seq 0 n)) /\
  exists fc train test,
    create_explicit_ml_1m_dataset reversing ratings_sample 4 test_size_0_2
      = Some (fc, train, test) /\
    List.length (user_rows UserId 2 ratings_sample) = 1%nat /\
    (1 <= user_count 2 (X_ids test))%nat /\
    ((1 <= user_count 2 (X_ids train))%nat <-> (2 <= 1)%nat).
Proof.
  split; [exact reversing_spec|].
  destruct (create_explicit_ml_1m_dataset reversing ratings_sample 4
              test_size_0_2) as [[[fc train] test]|] eqn:E;
    [|vm_compute in E; discriminate E].
  exists fc, train, test. split; [reflexivity|]. split; [reflexivity|].
  exact (every_user_is_tested reversing reversing_spec ratings_sample 4
           test_size_0_2 fc train test 2 E
           ltac:(vm_compute; lia) ltac:(vm_compute; discriminate)).
Defined.

Lemma label_encoding_round_trip_witness :
  exists sparse ids,
    encode_sparse (criteo_sample (F := Q)) = Some sparse /\
    nth_error sparse 0%nat = Some ids /\
    exists id,
      nth_error ids 2%nat = Some id /\
      nth_error (LabelEncoder.fit (fillna "-1"%string criteo_sample_C1)) id
      = Some "a"%string.
Proof.
  destruct (encode_sparse (criteo_sample (F := Q))) as [sparse|] eqn:E;
    [|vm_compute in E; discriminate E].
  destruct (label_encoding_round_trip (criteo_sample (F := Q)) sparse E
              0%nat criteo_sample_C1 eq_refl) as (ids & Hids & Hdec & _).
  exists sparse, ids. split; [reflexivity|]. split; [exact Hids|].
  exact (Hdec 2%nat "a"%string eq_refl).
Defined.

Lemma label_ids_are_contiguous_witness :
  exists sparse ids,
    encode_sparse (criteo_sample (F := Q)) = Some sparse /\
    nth_error sparse 0%nat = Some ids /\
    (forall id, (id < 3)%nat <-> In id ids) /\
    n_unique ids = 3.
Proof.
  destruct (encode_sparse (criteo_sample (F := Q))) as [sparse|] eqn:E;
    [|vm_compute in E; discriminate E].
  destruct (label_ids_are_contiguous (criteo_sample (F := Q)) sparse E
              0%nat criteo_sample_C1 eq_refl) as (ids & Hids & Hcov).
  exists sparse, ids. split; [reflexivity|]. split; [exact Hids|].
  exact Hcov.
Defined.

Lemma criteo_feature_columns_witness :
  criteo_wf (criteo_sample (F := float)) /\
  exists fc train test,
    create_criteo_dataset reversing (criteo_sample (F := float)) 8 false 0%nat
      test_size_0_2 = Some (fc, train, test) /\
    nth_error (snd fc) 0%nat = Some (sparseFeature "C1" 3 8).
Proof.
  split; [exact criteo_sample_wf|].
  destruct (create_criteo_dataset reversing (criteo_sample (F := float)) 8
              false 0%nat test_size_0_2) as [[[fc train] test]|] eqn:E;
    [|vm_compute in E; discriminate E].
  exists fc, train, test. split; [reflexivity|].
  destruct (criteo_feature_columns reversing (criteo_sample (F := float)) 8
              false 0%nat test_size_0_2 fc train test criteo_sample_wf E)
    as (_ & _ & _ & Hfc).
  exact (Hfc 0%nat criteo_sample_C1 eq_refl).
Defined.



Lemma criteo_split_sizes_witness :
  (forall k n, Permutation (reversing k n) (seq 0 n)) /\
  exists fc train test,
    create_criteo_dataset reversing (criteo_sample (F := float)) 8 false 0%nat
      test_size_0_2 = Some (fc, train, test) /\
    fceil (fmul test_size_0_2 (of_int 5)) = Some 1 /\
    Z.of_nat (List.length (y test)) = 1 /\
    Z.of_nat (List.length (y train)) = 5 - 1.
Proof.
  split; [exact reversing_spec|].
  destruct (create_criteo_dataset reversing (criteo_sample (F := float)) 8
              false 0%nat test_size_0_2) as [[[fc train] test]|] eqn:E;
    [|vm_compute in E; discriminate E].
  exists fc, train, test. split; [reflexivity|].
  split; [vm_compute; reflexivity|].
  destruct (criteo_split_sizes reversing reversing_spec
              (criteo_sample (F := float)) 8 false 0%nat test_size_0_2
              fc train test 1 E ltac:(vm_compute; reflexivity)
              ltac:(vm_compute; split; discriminate))
    as (H1 & H2 & _).
  split; assumption.
Defined.


Lemma read_part_beyond_file_witness :
  criteo_wf (criteo_sample (F := float)) /\
  (List.length (label (criteo_sample (F := float))) <= 100)%nat /\
  create_criteo_dataset reversing (criteo_sample (F := float)) 8 true 100%nat
    test_size_0_2 =
  create_criteo_dataset reversing (criteo_sample (F := float)) 8 false 100%nat
    test_size_0_2.
Proof.
  split; [exact criteo_sample_wf|].
  assert (Hs : (List.length (label (criteo_sample (F := float))) <= 100)%nat)
    by (vm_compute; lia).
  split; [exact Hs|].
  exact (read_part_beyond_file reversing (criteo_sample (F := float)) 8
           100%nat test_size_0_2 criteo_sample_wf Hs).
Defined.



